(** * smartcab/agent.py: the LearningAgent, embedded and verified

    A shallow embedding of [class LearningAgent] of [smartcab/agent.py].

    Conventions of the embedding.
    - Python numbers ([int] and [float]) are idealised as real numbers [R];
      rounding, overflow and NaN are not modelled.  The one non-finite
      value the code writes, [float('-inf')], is the constructor [NegInf]
      of [Float].
    - The values that appear in states and actions are [None] or a [str];
      they are modelled as [option string] ([None] is Python's [None]).
    - A state is a Python sequence of such values, a tuple or a list; only
      a tuple is hashable, so only a tuple can be a key of the dict [Q].
    - A method of the agent is a function from the agent before the call to
      an outcome (a value or a raised exception) and the agent after it.
    - What the collaborators (environment, planner, the [random] module)
      hand to the agent during a call is an argument of the method. *)

From Stdlib Require Import Reals Lra ZArith.
From stdpp Require Import gmap strings list fin_maps.

#[global] Instance Rlt_decision : RelDecision Rlt := Rlt_dec.
#[global] Instance Req_decision : EqDecision R := Req_dec_T.

(** ** Python values *)

(** [None] or a string: waypoints, percept values and actions. *)
Abbreviation Atom := (option string).

(** The sequences the agent uses as states: [(a, b, c, d)] or [[a, b, c, d]]. *)
Inductive PyValue :=
| PyTuple (items : list Atom)
| PyList (items : list Atom).

#[global] Instance PyValue_eq_dec : EqDecision PyValue.
Proof. solve_decision. Defined.

(** A float as [get_maxQ] handles it: [float('-inf')] or a finite number. *)
Inductive Float :=
| NegInf
| Fin (r : R).

(** [x < y] on floats. *)
Definition float_lt (x y : Float) : bool :=
  match x, y with
  | _, NegInf => false
  | NegInf, Fin _ => true
  | Fin a, Fin b => bool_decide (a < b)%R
  end.

(** [x == y] on floats. *)
Definition float_eq (x y : Float) : bool :=
  match x, y with
  | NegInf, NegInf => true
  | Fin a, Fin b => bool_decide (a = b)
  | _, _ => false
  end.

(** The order [<=] on floats, for stating what a maximum is. *)
Definition float_le (x y : Float) : Prop :=
  match x, y with
  | NegInf, _ => True
  | Fin _, NegInf => False
  | Fin a, Fin b => (a <= b)%R
  end.

(** The exceptions the agent's code can raise. *)
Inductive Exception :=
| KeyError    (* a key missing from a dict *)
| TypeError   (* an unhashable key, an unorderable comparison *)
| IndexError. (* [random.choice] of an empty sequence *)

Inductive Result (A : Type) :=
| Ok (a : A)
| Raise (e : Exception).
Arguments Ok {A} a.
Arguments Raise {A} e.

(** The interpreter that runs the agent.  The project is written for
    Python 2; Python 3 differs where values of different types are
    compared with [<]. *)
Inductive Python := Python2 | Python3.

(** [f < x] for a built-in function object [f] and a number [x].
    CPython 2 orders a number before every object that is not a number,
    so the function is never below the number; Python 3 raises TypeError. *)
Definition builtin_function_lt_number (py : Python) (x : R) : Result bool :=
  match py with
  | Python2 => Ok false
  | Python3 => Raise TypeError
  end.

(** ** The agent *)

(** A row of the Q-table, [{action: value}]. *)
Abbreviation Row := (gmap Atom R).

(** The attributes of a [LearningAgent] that its methods read or write.
    [state] and [next_waypoint] are the attributes of the base class
    [Agent], [None] until [choose_action] sets them. *)
Record LearningAgent := mkAgent {
  valid_actions : list Atom;
  learning : bool;
  Q : gmap (list Atom) Row;
  epsilon : R;
  alpha : R;
  t : Z;
  state : option PyValue;
  next_waypoint : Atom;
}.

(** [LearningAgent(env, learning, epsilon, alpha)], with
    [env.valid_actions] given. *)
Definition init (env_valid_actions : list Atom) (learning : bool)
    (epsilon alpha : R) : LearningAgent :=
  {| valid_actions := env_valid_actions;
     learning := learning;
     Q := ∅;
     epsilon := epsilon;
     alpha := alpha;
     t := 0;
     state := None;
     next_waypoint := None |}.

(** The defaults of the constructor: [learning=False, epsilon=1.0, alpha=0.5]. *)
Definition init_default (env_valid_actions : list Atom) : LearningAgent :=
  init env_valid_actions false 1 (1 / 2).

(** [Environment.valid_actions] *)
Definition env_valid_actions : list Atom :=
  [None; Some "forward"; Some "left"; Some "right"].

Definition set_Q (q : gmap (list Atom) Row) (self : LearningAgent) : LearningAgent :=
  {| valid_actions := valid_actions self; learning := learning self;
     Q := q; epsilon := epsilon self; alpha := alpha self; t := t self;
     state := state self; next_waypoint := next_waypoint self |}.

Definition set_epsilon (e : R) (self : LearningAgent) : LearningAgent :=
  {| valid_actions := valid_actions self; learning := learning self;
     Q := Q self; epsilon := e; alpha := alpha self; t := t self;
     state := state self; next_waypoint := next_waypoint self |}.

Definition set_alpha (a : R) (self : LearningAgent) : LearningAgent :=
  {| valid_actions := valid_actions self; learning := learning self;
     Q := Q self; epsilon := epsilon self; alpha := a; t := t self;
     state := state self; next_waypoint := next_waypoint self |}.

Definition set_t (n : Z) (self : LearningAgent) : LearningAgent :=
  {| valid_actions := valid_actions self; learning := learning self;
     Q := Q self; epsilon := epsilon self; alpha := alpha self; t := n;
     state := state self; next_waypoint := next_waypoint self |}.

Definition set_state (s : PyValue) (self : LearningAgent) : LearningAgent :=
  {| valid_actions := valid_actions self; learning := learning self;
     Q := Q self; epsilon := epsilon self; alpha := alpha self; t := t self;
     state := Some s; next_waypoint := next_waypoint self |}.

Definition set_next_waypoint (w : Atom) (self : LearningAgent) : LearningAgent :=
  {| valid_actions := valid_actions self; learning := learning self;
     Q := Q self; epsilon := epsilon self; alpha := alpha self; t := t self;
     state := state self; next_waypoint := w |}.

(** ** Methods as state transformers that may raise *)

Definition M (A : Type) : Type := LearningAgent → Result A * LearningAgent.

Definition ret {A} (a : A) : M A := λ self, (Ok a, self).

Definition raise {A} (e : Exception) : M A := λ self, (Raise e, self).

Definition bind {A B} (m : M A) (k : A → M B) : M B :=
  λ self,
    match m self with
    | (Ok a, self') => k a self'
    | (Raise e, self') => (Raise e, self')
    end.

Notation "'let!' x ':=' c 'in' k" := (bind c (λ x, k))
  (at level 10, x name, c at level 200, k at level 200).
Notation "c ;; k" := (bind c (λ _, k))
  (at level 100, k at level 200, right associativity).

(** Read an attribute. *)
Definition attr {A} (f : LearningAgent → A) : M A := λ self, (Ok (f self), self).

(** Assign an attribute. *)
Definition assign (f : LearningAgent → LearningAgent) : M unit :=
  λ self, (Ok tt, f self).

Definition lift {A} (r : Result A) : M A := λ self, (r, self).

(** [for x in xs: acc = body(acc, x)] *)
Fixpoint for_each {A B} (xs : list A) (acc : B) (body : B → A → M B) : M B :=
  match xs with
  | [] => ret acc
  | x :: xs' => let! acc' := body acc x in for_each xs' acc' body
  end.

(** ** Dict operations on [self.Q] *)

(** [hash(state)]: the key a dict files the state under. *)
Definition hash_key (state : PyValue) : Result (list Atom) :=
  match state with
  | PyTuple items => Ok items
  | PyList _ => Raise TypeError
  end.

(** [self.Q[state]] *)
Definition Q_getitem (state : PyValue) : M Row :=
  let! k := lift (hash_key state) in
  let! q := attr Q in
  match q !! k with
  | Some row => ret row
  | None => raise KeyError
  end.

(** [self.Q[state][action]] *)
Definition Q_getitem2 (state : PyValue) (action : Atom) : M R :=
  let! row := Q_getitem state in
  match row !! action with
  | Some v => ret v
  | None => raise KeyError
  end.

(** [self.Q.get(state, default)] *)
Definition Q_get (state : PyValue) (default : Row) : M Row :=
  let! k := lift (hash_key state) in
  let! q := attr Q in
  ret (match q !! k with Some row => row | None => default end).

(** [self.Q[state] = row] *)
Definition Q_setitem (state : PyValue) (row : Row) : M unit :=
  let! k := lift (hash_key state) in
  let! q := attr Q in
  assign (set_Q (<[k := row]> q)).

(** [self.Q[state][action] = v]: the row is looked up, then written to. *)
Definition Q_setitem2 (state : PyValue) (action : Atom) (v : R) : M unit :=
  let! row := Q_getitem state in
  Q_setitem state (<[action := v]> row).

(** The keys of a dict, in the order a [for] loop visits them. *)
Definition keys (row : Row) : list Atom := (map_to_list row).*1.

(** [random.choice(seq)]: the element at the index the generator picks,
    [draw] being the generator's next output; IndexError on an empty
    sequence. *)
Definition random_choice (seq : list Atom) (draw : nat) : M Atom :=
  match seq !! (draw mod length seq)%nat with
  | Some a => ret a
  | None => raise IndexError
  end.

(** ** What the collaborators hand to the agent *)

(** What [build_state] collects: [planner.next_waypoint()],
    [env.sense(self)] and [env.get_deadline(self)]. *)
Record Percept := mkPercept {
  waypoint : Atom;
  inputs : gmap string Atom;
  deadline : Z;
}.

(** One time step as the agent sees it: the percept, the output of the
    random generator, and the reward [env.act(self, action)] returns. *)
Record Step := mkStep {
  percept : Percept;
  draw : nat;
  act : Atom → R;
}.

(** [inputs[key]] *)
Definition getitem (inputs : gmap string Atom) (key : string) : M Atom :=
  match inputs !! key with
  | Some v => ret v
  | None => raise KeyError
  end.

(** [str(s)] of a string. *)
Definition str (s : string) : string := s.

(** [[f(s) for s in seq]]: a new list, whatever sequence [seq] is. *)
Definition list_comprehension (f : Atom → Atom) (seq : PyValue) : PyValue :=
  match seq with
  | PyTuple items | PyList items => PyList (f <$> items)
  end.

(** ** The methods of [LearningAgent] *)

(** [reset(self, destination, testing)].  [planner.route_to(destination)]
    acts on the planner alone. *)
Definition reset (destination : option (Z * Z)) (testing : bool) : M unit :=
  if testing then
    assign (set_epsilon 0) ;;
    assign (set_alpha 0)
  else
    (let! n := attr t in assign (set_t (n + 1))) ;;
    let! a := attr alpha in
    let! n := attr t in
    assign (set_epsilon (Rabs (cos (a * IZR n)))).

(** [build_state(self)] *)
Definition build_state (p : Percept) : M PyValue :=
  let waypoint := waypoint p in
  let inputs := inputs p in
  let deadline := deadline p in
  let! right := getitem inputs "right" in
  let! left := getitem inputs "left" in
  let! oncoming := getitem inputs "oncoming" in
  let state := PyTuple [waypoint; right; left; oncoming] in
  let buildString := λ s : Atom,
    match s with None => None | Some s => Some (str s) end in
  let state := list_comprehension buildString state in
  ret state.

(** [get_maxQ(self, state)] *)
Definition get_maxQ (state : PyValue) : M Float :=
  let maxQ := NegInf in
  let! row := Q_getitem state in
  for_each (keys row) maxQ (λ maxQ action,
    let! v := Q_getitem2 state action in
    if float_lt maxQ (Fin v) then
      let! v := Q_getitem2 state action in ret (Fin v)
    else ret maxQ).

(** The row [createQ] gives a new state. *)
Definition new_row : Row :=
  {[ None := 0%R; Some "forward" := 0%R; Some "left" := 0%R;
     Some "right" := 0%R ]}.

(** [createQ(self, state)] *)
Definition createQ (state : PyValue) : M unit :=
  let! learning := attr learning in
  if learning : bool then
    let! row := Q_get state new_row in
    Q_setitem state row
  else ret tt.

(** [choose_action(self, state)].  [wp] is what [planner.next_waypoint()]
    returns; [comp] is the function [random.random], which the code does
    not call. *)
Definition choose_action (py : Python) (state : PyValue) (wp : Atom)
    (draw : nat) : M Atom :=
  assign (set_state state) ;;
  assign (set_next_waypoint wp) ;;
  let! learning := attr learning in
  if learning : bool then
    let! epsilon := attr epsilon in
    let! below := lift (builtin_function_lt_number py epsilon) in
    if below : bool then
      let! actions := attr valid_actions in
      random_choice actions draw
    else
      let valid_actions : list Atom := [] in
      let! maxQ := get_maxQ state in
      let! row := Q_getitem state in
      let! valid_actions := for_each (keys row) valid_actions (λ valid_actions a,
        let! v := Q_getitem2 state a in
        if float_eq maxQ (Fin v) then ret (valid_actions ++ [a])
        else ret valid_actions) in
      random_choice valid_actions draw
  else
    let! actions := attr valid_actions in
    random_choice actions draw.

(** [learn(self, state, action, reward)] *)
Definition learn (state : PyValue) (action : Atom) (reward : R) : M unit :=
  let! learning := attr learning in
  if learning : bool then
    let! old := Q_getitem2 state action in
    let! alpha := attr alpha in
    let! old' := Q_getitem2 state action in
    Q_setitem2 state action (old + alpha * (reward - old'))%R
  else ret tt.

(** [update(self)] *)
Definition update (py : Python) (env : Step) : M unit :=
  let! state := build_state (percept env) in
  createQ state ;;
  let! action := choose_action py state (waypoint (percept env)) (draw env) in
  let reward := act env action in
  learn state action reward.

(** ** Runs: the calls made on an agent, in order *)

Inductive Call :=
| call_reset (destination : option (Z * Z)) (testing : bool)
| call_build_state (p : Percept)
| call_get_maxQ (state : PyValue)
| call_createQ (state : PyValue)
| call_choose_action (state : PyValue) (wp : Atom) (draw : nat)
| call_learn (state : PyValue) (action : Atom) (reward : R)
| call_update (env : Step).

(** The agent after a call, whether the call returned or raised. *)
Definition exec (py : Python) (c : Call) (self : LearningAgent) : LearningAgent :=
  match c with
  | call_reset destination testing => (reset destination testing self).2
  | call_build_state p => (build_state p self).2
  | call_get_maxQ state => (get_maxQ state self).2
  | call_createQ state => (createQ state self).2
  | call_choose_action state wp draw => (choose_action py state wp draw self).2
  | call_learn state action reward => (learn state action reward self).2
  | call_update env => (update py env self).2
  end.

Definition run (py : Python) (calls : list Call) (self : LearningAgent) : LearningAgent :=
  foldl (λ self c, exec py c self) self calls.

(** ** Notions the statements use *)

(** One turn of the loop of [get_maxQ], on the row read beforehand. *)
Definition max_step (row : Row) (maxQ : Float) (action : Atom) : Float :=
  match row !! action with
  | Some v => if float_lt maxQ (Fin v) then Fin v else maxQ
  | None => maxQ
  end.

(** What [get_maxQ] returns for a state whose row is [row]. *)
Definition row_max (row : Row) : Float := foldl (max_step row) NegInf (keys row).

(** The test of the loop of [choose_action]: [maxQ == row[a]]. *)
Definition is_best (row : Row) (maxQ : Float) (a : Atom) : bool :=
  match row !! a with
  | Some v => float_eq maxQ (Fin v)
  | None => false
  end.

(** The list [valid_actions] that loop builds. *)
Definition best_actions (row : Row) : list Atom :=
  filter (λ a, is_best row (row_max row) a = true) (keys row).

(** A computation that leaves the agent as it was. *)
Definition read_only {A} (m : M A) : Prop := ∀ self, (m self).2 = self.

(** The part of [choose_action] after its two assignments. *)
Definition choose_action_select (py : Python) (state : PyValue) (draw : nat) : M Atom :=
  let! learning := attr learning in
  if learning : bool then
    let! epsilon := attr epsilon in
    let! below := lift (builtin_function_lt_number py epsilon) in
    if below : bool then
      let! actions := attr valid_actions in
      random_choice actions draw
    else
      let valid_actions : list Atom := [] in
      let! maxQ := get_maxQ state in
      let! row := Q_getitem state in
      let! valid_actions := for_each (keys row) valid_actions (λ valid_actions a,
        let! v := Q_getitem2 state a in
        if float_eq maxQ (Fin v) then ret (valid_actions ++ [a])
        else ret valid_actions) in
      random_choice valid_actions draw
  else
    let! actions := attr valid_actions in
    random_choice actions draw.

(** [{None: n, 'forward': f, 'left': l, 'right': r}] *)
Definition row_of (n f l r : R) : Row :=
  {[ None := n; Some "forward" := f; Some "left" := l; Some "right" := r ]}.

(** ** Scenarios *)

(** The state [('forward', None, None, None)]. *)
Definition example_state : list Atom := [Some "forward"; None; None; None].

(** The state [('left', None, None, None)]. *)
Definition other_state : list Atom := [Some "left"; None; None; None].

(** A learning agent with [epsilon = 1.0] that knows one state, in which
    ['forward'] alone has the best value. *)
Definition explorer : LearningAgent :=
  set_Q {[ example_state := row_of 0 1 0 0 ]}
    (init env_valid_actions true 1 (1 / 2)).

(** A learning agent with [epsilon = 0] that knows one state, in which
    ['forward'] and ['left'] tie for the best value. *)
Definition tied : LearningAgent :=
  set_Q {[ example_state := row_of 0 1 1 0 ]}
    (init env_valid_actions true 0 (1 / 2)).

(** What the agent senses on a clear road with a green light. *)
Definition clear_road : Percept :=
  {| waypoint := Some "forward";
     inputs := {[ "light" := Some "green"; "oncoming" := None;
                  "left" := None; "right" := None ]};
     deadline := 25 |}.

(** A fresh learning agent, [LearningAgent(env, learning=True)]. *)
Definition learner : LearningAgent := init env_valid_actions true 1 (1 / 2).

(** ** Notions for runs and rows *)

(** [reset(destination, testing=False)]: the start of a training trial. *)
Definition training_reset (c : Call) : bool :=
  match c with
  | call_reset _ false => true
  | _ => false
  end.

(** [reset(destination, testing=True)]: the start of a testing trial. *)
Definition testing_reset (c : Call) : bool :=
  match c with
  | call_reset _ true => true
  | _ => false
  end.

(** How many training trials a run starts. *)
Definition training_resets (calls : list Call) : Z :=
  Z.of_nat (length (filter (λ c, training_reset c = true) calls)).

(** A row with an entry for each of the four actions and for nothing else. *)
Definition complete_row (row : Row) : Prop :=
  ∀ a : Atom, is_Some (row !! a) ↔ a ∈ env_valid_actions.

(** The value [v] is the largest of the row. *)
Definition largest (row : Row) (v : R) : Prop :=
  ∀ (a : Atom) (v' : R), row !! a = Some v' → (v' <= v)%R.

(** What the agent senses at a red light with a car coming from the left,
    late in the trial. *)
Definition red_light : Percept :=
  {| waypoint := Some "forward";
     inputs := <["light" := Some "red"]> (<["left" := Some "forward"]> (inputs clear_road));
     deadline := 3 |}.

(** * Properties *)

(** ** The order on floats *)

Lemma float_le_refl x : float_le x x.
Proof. destruct x; simpl; [done | lra]. Qed.

Lemma float_le_trans x y z : float_le x y → float_le y z → float_le x z.
Proof. destruct x, y, z; simpl; try done; lra. Qed.

Lemma float_lt_true x v : float_lt x (Fin v) = true → float_le x (Fin v).
Proof.
  destruct x as [|a]; simpl; [done |].
  intros H%bool_decide_eq_true. lra.
Qed.

Lemma float_lt_false x v : float_lt x (Fin v) = false → float_le (Fin v) x.
Proof.
  destruct x as [|a]; simpl; [done |].
  intros H%bool_decide_eq_false. lra.
Qed.

Lemma float_eq_true x v : float_eq x (Fin v) = true ↔ x = Fin v.
Proof.
  destruct x as [|a]; simpl; [done |].
  rewrite bool_decide_eq_true. split; [by intros -> | by intros [= ->]].
Qed.

(** ** Dict operations *)

Lemma Q_getitem_present self k row :
  Q self !! k = Some row → Q_getitem (PyTuple k) self = (Ok row, self).
Proof. intros H. unfold Q_getitem, bind, lift, attr; simpl. by rewrite H. Qed.

Lemma Q_getitem_absent self k :
  Q self !! k = None → Q_getitem (PyTuple k) self = (Raise KeyError, self).
Proof. intros H. unfold Q_getitem, bind, lift, attr; simpl. by rewrite H. Qed.

Lemma Q_getitem_unhashable self items :
  Q_getitem (PyList items) self = (Raise TypeError, self).
Proof. done. Qed.

Lemma Q_getitem2_present self k row a v :
  Q self !! k = Some row → row !! a = Some v →
  Q_getitem2 (PyTuple k) a self = (Ok v, self).
Proof.
  intros Hk Ha. unfold Q_getitem2, bind.
  rewrite (Q_getitem_present _ _ _ Hk). by rewrite Ha.
Qed.

Lemma elem_of_keys (row : Row) a : a ∈ keys row ↔ is_Some (row !! a).
Proof.
  unfold keys. rewrite list_elem_of_fmap. split.
  - intros [[a' v] [-> H%elem_of_map_to_list]]. by exists v.
  - intros [v H]. exists (a, v). split; [done | by apply elem_of_map_to_list].
Qed.

Lemma keys_nil (row : Row) : keys row = [] ↔ row = ∅.
Proof.
  unfold keys. split.
  - intros H%fmap_nil_inv. by apply map_to_list_empty_iff.
  - intros ->. by rewrite map_to_list_empty.
Qed.

(** ** [random.choice] *)

Lemma random_choice_nil d self :
  random_choice [] d self = (Raise IndexError, self).
Proof. unfold random_choice. by rewrite lookup_nil. Qed.

Lemma random_choice_returns seq d self :
  seq ≠ [] → ∃ a, a ∈ seq ∧ random_choice seq d self = (Ok a, self).
Proof.
  intros Hne. unfold random_choice.
  assert (d mod length seq < length seq)%nat as Hlt.
  { apply Nat.mod_upper_bound. destruct seq; [done | simpl; lia]. }
  apply lookup_lt_is_Some in Hlt as [a Ha]. rewrite Ha.
  exists a. split; [| done]. apply list_elem_of_lookup. eauto.
Qed.

Lemma random_choice_elem seq d self r self' :
  random_choice seq d self = (r, self') →
  self' = self ∧ (∀ a, r = Ok a → a ∈ seq) ∧ (seq ≠ [] → ∃ a, r = Ok a).
Proof.
  unfold random_choice. intros H.
  destruct (seq !! (d mod length seq)%nat) as [a|] eqn:Ha.
  - injection H as <- <-. split; [done |]. split; [| eauto].
    intros ? [= <-]. apply list_elem_of_lookup. eauto.
  - injection H as <- <-. split; [done |]. split; [done |].
    intros Hne. destruct (random_choice_returns seq d self Hne) as (a & _ & Hr).
    unfold random_choice in Hr. by rewrite Ha in Hr.
Qed.

Lemma random_choice_reaches seq a self :
  a ∈ seq → ∃ d, random_choice seq d self = (Ok a, self).
Proof.
  intros [i Hi]%list_elem_of_lookup. exists i. unfold random_choice.
  rewrite Nat.mod_small; [by rewrite Hi |]. by eapply lookup_lt_Some.
Qed.

(** ** [get_maxQ] and the best actions of a row *)

Lemma get_maxQ_loop self k row l acc :
  Q self !! k = Some row →
  (∀ a, a ∈ l → is_Some (row !! a)) →
  for_each l acc (λ maxQ action,
    let! v := Q_getitem2 (PyTuple k) action in
    if float_lt maxQ (Fin v) then
      let! v := Q_getitem2 (PyTuple k) action in ret (Fin v)
    else ret maxQ) self
  = (Ok (foldl (max_step row) acc l), self).
Proof.
  intros Hk. revert acc. induction l as [|a l IH]; intros acc Hl; [done |].
  destruct (Hl a) as [v Hv]; [by left |].
  simpl. unfold bind at 1. unfold bind at 1.
  rewrite (Q_getitem2_present _ _ _ _ _ Hk Hv).
  unfold max_step at 2. rewrite Hv.
  destruct (float_lt acc (Fin v)).
  - unfold bind at 1. rewrite (Q_getitem2_present _ _ _ _ _ Hk Hv).
    unfold ret at 1. apply IH. intros a' Ha'. apply Hl. by right.
  - unfold ret at 1. apply IH. intros a' Ha'. apply Hl. by right.
Qed.

Lemma get_maxQ_present self k row :
  Q self !! k = Some row → get_maxQ (PyTuple k) self = (Ok (row_max row), self).
Proof.
  intros Hk. unfold get_maxQ, bind at 1.
  rewrite (Q_getitem_present _ _ _ Hk).
  apply get_maxQ_loop; [done |]. intros a. by rewrite elem_of_keys.
Qed.

Lemma get_maxQ_absent self k :
  Q self !! k = None → get_maxQ (PyTuple k) self = (Raise KeyError, self).
Proof.
  intros Hk. unfold get_maxQ, bind at 1. by rewrite (Q_getitem_absent _ _ Hk).
Qed.

Lemma get_maxQ_unhashable self items :
  get_maxQ (PyList items) self = (Raise TypeError, self).
Proof. done. Qed.

Lemma foldl_max_step row l acc :
  float_le acc (foldl (max_step row) acc l)
  ∧ (∀ a v, a ∈ l → row !! a = Some v →
       float_le (Fin v) (foldl (max_step row) acc l))
  ∧ (foldl (max_step row) acc l = acc
     ∨ ∃ a v, a ∈ l ∧ row !! a = Some v ∧ foldl (max_step row) acc l = Fin v).
Proof.
  revert acc. induction l as [|a l IH]; intros acc; cbn [foldl].
  { split; [apply float_le_refl |]. split; [| by left].
    intros a v Ha. by apply not_elem_of_nil in Ha. }
  destruct (IH (max_step row acc a)) as (Hle & Hall & Hex).
  assert (float_le acc (max_step row acc a)) as Hstep.
  { unfold max_step. destruct (row !! a) as [v|]; [| apply float_le_refl].
    destruct (float_lt acc (Fin v)) eqn:Hlt; [| apply float_le_refl].
    by apply float_lt_true. }
  split; [exact (float_le_trans _ _ _ Hstep Hle) |]. split.
  - intros a' v [-> | Ha']%elem_of_cons Hv; [| by eapply Hall].
    apply (float_le_trans _ (max_step row acc a)); [| exact Hle].
    unfold max_step. rewrite Hv.
    destruct (float_lt acc (Fin v)) eqn:Hlt; [apply float_le_refl |].
    by apply float_lt_false.
  - destruct Hex as [Heq | (a' & v & Ha' & Hv & Heq)].
    + rewrite Heq. unfold max_step.
      destruct (row !! a) as [v|] eqn:Hv; [| by left].
      destruct (float_lt acc (Fin v)); [| by left].
      right. exists a, v. split; [by left | done].
    + right. exists a', v. split; [by right | done].
Qed.

(** The value [get_maxQ] returns is the largest of the row, and is
    attained by an action of the row. *)
Lemma row_max_spec (row : Row) :
  row ≠ ∅ →
  ∃ a v, row !! a = Some v ∧ row_max row = Fin v
         ∧ ∀ a' v', row !! a' = Some v' → (v' <= v)%R.
Proof.
  intros Hne. unfold row_max.
  destruct (foldl_max_step row (keys row) NegInf) as (_ & Hall & Hex).
  destruct Hex as [Heq | (a & v & Ha & Hv & Heq)].
  - exfalso. destruct (keys row) as [|a l] eqn:Hkeys.
    { by apply Hne, keys_nil. }
    assert (is_Some (row !! a)) as [v Hv].
    { apply elem_of_keys. rewrite Hkeys. by left. }
    specialize (Hall a v). rewrite Heq in Hall. apply Hall; [by left | done].
  - exists a, v. split; [done |]. split; [done |].
    intros a' v' Hv'. specialize (Hall a' v'). rewrite Heq in Hall.
    apply Hall; [| done]. apply elem_of_keys. by exists v'.
Qed.

Lemma row_max_empty : row_max ∅ = NegInf.
Proof. unfold row_max. by rewrite (proj2 (keys_nil ∅)). Qed.

Lemma elem_of_best_actions (row : Row) a :
  a ∈ best_actions row ↔ ∃ v, row !! a = Some v ∧ row_max row = Fin v.
Proof.
  unfold best_actions. rewrite list_elem_of_filter, elem_of_keys.
  unfold is_best. split.
  - intros [H [v Hv]]. rewrite Hv in H. exists v. split; [done |].
    by apply float_eq_true.
  - intros (v & Hv & Hm). rewrite Hv. split; [| by exists v].
    by apply float_eq_true.
Qed.

Lemma best_actions_nonempty (row : Row) : row ≠ ∅ → best_actions row ≠ [].
Proof.
  intros (a & v & Hv & Hm & _)%row_max_spec.
  assert (a ∈ best_actions row) as Ha.
  { apply elem_of_best_actions. by exists v. }
  intros Hnil. rewrite Hnil in Ha. by apply not_elem_of_nil in Ha.
Qed.

Lemma best_actions_loop self k row maxQ l acc :
  Q self !! k = Some row →
  (∀ a, a ∈ l → is_Some (row !! a)) →
  for_each l acc (λ valid_actions a,
    let! v := Q_getitem2 (PyTuple k) a in
    if float_eq maxQ (Fin v) then ret (valid_actions ++ [a])
    else ret valid_actions) self
  = (Ok (acc ++ filter (λ a, is_best row maxQ a = true) l), self).
Proof.
  intros Hk. revert acc. induction l as [|a l IH]; intros acc Hl.
  { simpl. by rewrite app_nil_r. }
  destruct (Hl a) as [v Hv]; [by left |].
  simpl. unfold bind at 1. unfold bind at 1.
  rewrite (Q_getitem2_present _ _ _ _ _ Hk Hv).
  assert (is_best row maxQ a = float_eq maxQ (Fin v)) as Hbest.
  { unfold is_best. by rewrite Hv. }
  rewrite filter_cons, Hbest.
  destruct (float_eq maxQ (Fin v)); unfold ret at 1.
  - rewrite IH; [| intros a' Ha'; apply Hl; by right].
    rewrite decide_True by done. by rewrite <- app_assoc.
  - rewrite IH; [| intros a' Ha'; apply Hl; by right].
    by rewrite decide_False by done.
Qed.

(** ** Computations that only read the agent *)

Lemma read_only_ret {A} (a : A) : read_only (ret a).
Proof. done. Qed.

Lemma read_only_raise {A} e : read_only (@raise A e).
Proof. done. Qed.

Lemma read_only_attr {A} (f : LearningAgent → A) : read_only (attr f).
Proof. done. Qed.

Lemma read_only_lift {A} (r : Result A) : read_only (lift r).
Proof. done. Qed.

Lemma read_only_bind {A B} (m : M A) (k : A → M B) :
  read_only m → (∀ a, read_only (k a)) → read_only (bind m k).
Proof.
  intros Hm Hk self. unfold bind. specialize (Hm self).
  destruct (m self) as [[a|e] self']; simpl in *; subst; [apply Hk | done].
Qed.

Lemma read_only_for_each {A B} (xs : list A) (acc : B) (body : B → A → M B) :
  (∀ acc x, read_only (body acc x)) → read_only (for_each xs acc body).
Proof.
  intros Hbody. revert acc. induction xs as [|x xs IH]; intros acc; simpl.
  - apply read_only_ret.
  - apply read_only_bind; [apply Hbody | intros acc'; apply IH].
Qed.

Lemma read_only_random_choice seq d : read_only (random_choice seq d).
Proof. intros self. unfold random_choice. by destruct (seq !! _). Qed.

Lemma read_only_Q_getitem state : read_only (Q_getitem state).
Proof.
  unfold Q_getitem. apply read_only_bind; [apply read_only_lift |]. intros k.
  apply read_only_bind; [apply read_only_attr |]. intros q.
  destruct (q !! k); [apply read_only_ret | apply read_only_raise].
Qed.

Lemma read_only_Q_getitem2 state a : read_only (Q_getitem2 state a).
Proof.
  unfold Q_getitem2. apply read_only_bind; [apply read_only_Q_getitem |].
  intros row. destruct (row !! a); [apply read_only_ret | apply read_only_raise].
Qed.

Lemma read_only_get_maxQ state : read_only (get_maxQ state).
Proof.
  unfold get_maxQ. apply read_only_bind; [apply read_only_Q_getitem |].
  intros row. apply read_only_for_each. intros maxQ a.
  apply read_only_bind; [apply read_only_Q_getitem2 |]. intros v.
  destruct (float_lt maxQ (Fin v)); [| apply read_only_ret].
  apply read_only_bind; [apply read_only_Q_getitem2 |]. intros v'.
  apply read_only_ret.
Qed.

Lemma read_only_getitem inputs key : read_only (getitem inputs key).
Proof.
  unfold getitem. destruct (inputs !! key); [apply read_only_ret | apply read_only_raise].
Qed.

Lemma read_only_build_state p : read_only (build_state p).
Proof.
  unfold build_state.
  repeat (apply read_only_bind; [apply read_only_getitem | intros ?]).
  apply read_only_ret.
Qed.

(** ** [choose_action] *)

Lemma choose_action_unfold py state wp d self :
  choose_action py state wp d self
  = choose_action_select py state d (set_next_waypoint wp (set_state state self)).
Proof. done. Qed.

Lemma read_only_choose_action_select py state d :
  read_only (choose_action_select py state d).
Proof.
  unfold choose_action_select.
  apply read_only_bind; [apply read_only_attr |]. intros [|].
  - apply read_only_bind; [apply read_only_attr |]. intros eps.
    apply read_only_bind; [apply read_only_lift |]. intros [|].
    + apply read_only_bind; [apply read_only_attr |]. intros va.
      apply read_only_random_choice.
    + apply read_only_bind; [apply read_only_get_maxQ |]. intros maxQ.
      apply read_only_bind; [apply read_only_Q_getitem |]. intros row.
      apply read_only_bind; [| intros va; apply read_only_random_choice].
      apply read_only_for_each. intros acc a.
      apply read_only_bind; [apply read_only_Q_getitem2 |]. intros v.
      destruct (float_eq maxQ (Fin v)); apply read_only_ret.
  - apply read_only_bind; [apply read_only_attr |]. intros va.
    apply read_only_random_choice.
Qed.

(** The agent after [choose_action]: two attributes assigned, the rest as
    before, whether an action is returned or an exception raised. *)
Lemma choose_action_agent py state wp d self :
  (choose_action py state wp d self).2
  = set_next_waypoint wp (set_state state self).
Proof. rewrite choose_action_unfold. apply read_only_choose_action_select. Qed.

(** Not learning: a random valid action. *)
Lemma choose_action_not_learning py state wp d self :
  learning self = false →
  choose_action py state wp d self
  = random_choice (valid_actions self) d
      (set_next_waypoint wp (set_state state self)).
Proof.
  intros Hl. rewrite choose_action_unfold.
  unfold choose_action_select, bind at 1, attr at 1. simpl. by rewrite Hl.
Qed.

(** Learning, under Python 2: whatever [epsilon] is, a random action among
    the best of the row. *)
Lemma choose_action_python2 k row wp d self :
  learning self = true → Q self !! k = Some row →
  choose_action Python2 (PyTuple k) wp d self
  = random_choice (best_actions row) d
      (set_next_waypoint wp (set_state (PyTuple k) self)).
Proof.
  intros Hl Hk. rewrite choose_action_unfold.
  set (self' := set_next_waypoint wp (set_state (PyTuple k) self)).
  assert (Q self' !! k = Some row) as Hk' by done.
  unfold choose_action_select, bind at 1, attr at 1.
  replace (learning self') with true by done.
  unfold bind at 1, attr at 1. unfold bind at 1, lift at 1. simpl.
  unfold bind at 1. rewrite (get_maxQ_present _ _ _ Hk').
  unfold bind at 1. rewrite (Q_getitem_present _ _ _ Hk').
  unfold bind at 1.
  rewrite (best_actions_loop _ _ _ (row_max row) _ [] Hk');
    [done | intros a; by rewrite elem_of_keys].
Qed.

(** Learning, under Python 3: the comparison of [comp] with [epsilon]
    raises. *)
Lemma choose_action_python3 state wp d self :
  learning self = true →
  choose_action Python3 state wp d self
  = (Raise TypeError, set_next_waypoint wp (set_state state self)).
Proof.
  intros Hl. rewrite choose_action_unfold.
  unfold choose_action_select, bind at 1, attr at 1. simpl. by rewrite Hl.
Qed.

(** ** [createQ] and [learn], case by case *)

Lemma createQ_cases state self :
  createQ state self =
  if learning self then
    match state with
    | PyTuple k =>
        (Ok tt, set_Q (<[k := default new_row (Q self !! k)]> (Q self)) self)
    | PyList _ => (Raise TypeError, self)
    end
  else (Ok tt, self).
Proof.
  unfold createQ, bind at 1, attr at 1.
  destruct (learning self); [| done].
  destruct state as [k | items]; [| done].
  unfold Q_get, Q_setitem, bind, lift, attr, ret, assign. simpl.
  by destruct (Q self !! k).
Qed.

Lemma learn_cases state a r self :
  learn state a r self =
  if learning self then
    match state with
    | PyTuple k =>
        match Q self !! k with
        | Some row =>
            match row !! a with
            | Some old =>
                (Ok tt,
                 set_Q (<[k := <[a := (old + alpha self * (r - old))%R]> row]>
                          (Q self)) self)
            | None => (Raise KeyError, self)
            end
        | None => (Raise KeyError, self)
        end
    | PyList _ => (Raise TypeError, self)
    end
  else (Ok tt, self).
Proof.
  unfold learn, bind at 1, attr at 1.
  destruct (learning self); [| done].
  destruct state as [k | items]; [| done].
  destruct (Q self !! k) as [row|] eqn:Hk.
  - destruct (row !! a) as [old|] eqn:Ha.
    + unfold bind at 1. rewrite (Q_getitem2_present _ _ _ _ _ Hk Ha).
      unfold bind at 1, attr at 1. unfold bind at 1.
      rewrite (Q_getitem2_present _ _ _ _ _ Hk Ha).
      unfold Q_setitem2, bind at 1. rewrite (Q_getitem_present _ _ _ Hk).
      done.
    + unfold bind at 1, Q_getitem2, bind at 1.
      rewrite (Q_getitem_present _ _ _ Hk). by rewrite Ha.
  - unfold bind at 1, Q_getitem2, bind at 1.
    by rewrite (Q_getitem_absent _ _ Hk).
Qed.

Lemma build_state_cases p self :
  build_state p self =
  match inputs p !! "right", inputs p !! "left", inputs p !! "oncoming" with
  | Some r, Some l, Some o => (Ok (PyList [waypoint p; r; l; o]), self)
  | _, _, _ => (Raise KeyError, self)
  end.
Proof.
  unfold build_state, getitem, bind, ret, raise.
  destruct (inputs p !! "right") as [r|]; [| done].
  destruct (inputs p !! "left") as [l|]; [| done].
  destruct (inputs p !! "oncoming") as [o|]; [| done].
  simpl. unfold str. do 3 f_equal.
  by destruct (waypoint p), r, l, o.
Qed.

(** [build_state] never returns a tuple. *)
Lemma build_state_list p self r self' :
  build_state p self = (r, self') →
  self' = self ∧ (r = Raise KeyError ∨ ∃ items, r = Ok (PyList items)).
Proof.
  rewrite build_state_cases.
  destruct (inputs p !! "right"), (inputs p !! "left"),
    (inputs p !! "oncoming"); intros [= <- <-]; eauto.
Qed.

(** ** [update] *)

(** A learning agent never gets through [update]: the state is a list,
    and [createQ] cannot file a list in [Q]. *)
Lemma update_learning py env self :
  learning self = true →
  ∃ e, update py env self = (Raise e, self).
Proof.
  intros Hl. unfold update, bind at 1.
  destruct (build_state (percept env) self) as [r self'] eqn:Hb.
  apply build_state_list in Hb as [-> [-> | [items ->]]]; [by eexists |].
  unfold bind at 1. rewrite createQ_cases, Hl. by eexists.
Qed.

(** An agent that does not learn picks a random valid action and leaves
    [Q] alone; [choose_action] has assigned [state] and [next_waypoint]. *)
Lemma update_not_learning py env self :
  learning self = false →
  (update py env self).2 = self
  ∨ ∃ state, (update py env self).2
             = set_next_waypoint (waypoint (percept env)) (set_state state self).
Proof.
  intros Hl. remember (update py env self) as result eqn:Hr.
  unfold update, bind at 1 in Hr.
  destruct (build_state (percept env) self) as [r self'] eqn:Hb.
  apply build_state_list in Hb as [-> [-> | [items ->]]]; [left; by subst |].
  right. exists (PyList items).
  unfold bind at 1 in Hr. rewrite createQ_cases, Hl in Hr.
  unfold bind at 1 in Hr.
  destruct (choose_action py (PyList items) (waypoint (percept env)) (draw env) self)
    as [[a|e] self'] eqn:Hc;
    pose proof (choose_action_agent py (PyList items) (waypoint (percept env))
                  (draw env) self) as Hagent;
    rewrite Hc in Hagent; simpl in Hagent; subst self'; [| by subst].
  rewrite learn_cases in Hr. simpl in Hr. rewrite Hl in Hr. by subst.
Qed.

Lemma update_agent py env self :
  (update py env self).2 = self
  ∨ ∃ state, (update py env self).2
             = set_next_waypoint (waypoint (percept env)) (set_state state self).
Proof.
  destruct (learning self) eqn:Hl.
  - left. by destruct (update_learning py env self Hl) as [e ->].
  - by apply update_not_learning.
Qed.

Lemma update_Q py env self : Q (update py env self).2 = Q self.
Proof. by destruct (update_agent py env self) as [-> | [state ->]]. Qed.

(** ** [reset] *)

Lemma reset_cases destination testing self :
  reset destination testing self =
  (Ok tt,
   if testing then set_alpha 0 (set_epsilon 0 self)
   else set_epsilon (Rabs (cos (alpha self * IZR (t self + 1))))
          (set_t (t self + 1) self)).
Proof. by destruct testing. Qed.

(** ** Runs *)

Lemma run_app py calls calls' self :
  run py (calls ++ calls') self = run py calls' (run py calls self).
Proof. apply foldl_app. Qed.

Lemma learn_alpha_zero state a r self :
  alpha self = 0%R → (learn state a r self).2 = self.
Proof.
  intros Hz. rewrite learn_cases.
  destruct (learning self); [| done].
  destruct state as [k | items]; [| done].
  destruct (Q self !! k) as [row|] eqn:Hk; [| done].
  destruct (row !! a) as [old|] eqn:Ha; [| done].
  simpl. rewrite Hz.
  replace (old + 0 * (r - old))%R with old by lra.
  rewrite (insert_id row a old Ha), (insert_id (Q self) k row Hk).
  by destruct self.
Qed.

(** No method but [reset] assigns [alpha]. *)
Lemma exec_alpha py c self :
  (∀ destination, c ≠ call_reset destination true) →
  alpha (exec py c self) = alpha self.
Proof.
  intros Hc. destruct c as [d testing | p | st | st | st wp dr | st a r | env]; simpl.
  - rewrite reset_cases. destruct testing; [by destruct (Hc d) | done].
  - by rewrite read_only_build_state.
  - by rewrite read_only_get_maxQ.
  - rewrite createQ_cases. by destruct (learning self), st.
  - by rewrite choose_action_agent.
  - rewrite learn_cases. destruct (learning self); [| done].
    destruct st as [k | items]; [| done].
    destruct (Q self !! k) as [row|]; [| done].
    by destruct (row !! a).
  - by destruct (update_agent py env self) as [-> | [state ->]].
Qed.

Lemma exec_alpha_zero py c self :
  alpha self = 0%R → alpha (exec py c self) = 0%R.
Proof.
  intros Hz. destruct c as [d [|] | | | | | |];
    [done | rewrite exec_alpha; done ..].
Qed.

Lemma run_alpha_zero py calls self :
  alpha self = 0%R → alpha (run py calls self) = 0%R.
Proof.
  revert self. induction calls as [|c calls IH]; intros self Hz; [done |].
  simpl. apply IH. by apply exec_alpha_zero.
Qed.

(** No method changes [learning]. *)
Lemma exec_learning py c self : learning (exec py c self) = learning self.
Proof.
  destruct c as [d testing | p | st | st | st wp dr | st a r | env]; simpl.
  - rewrite reset_cases. by destruct testing.
  - by rewrite read_only_build_state.
  - by rewrite read_only_get_maxQ.
  - rewrite createQ_cases. destruct (learning self) eqn:Hl; [| done].
    by destruct st.
  - by rewrite choose_action_agent.
  - rewrite learn_cases. destruct (learning self) eqn:Hl; [| done].
    destruct st as [k | items]; [| done].
    destruct (Q self !! k) as [row|]; [| done].
    by destruct (row !! a).
  - by destruct (update_agent py env self) as [-> | [state ->]].
Qed.

Lemma run_learning py calls self : learning (run py calls self) = learning self.
Proof.
  revert self. induction calls as [|c calls IH]; intros self; [done |].
  simpl. by rewrite IH, exec_learning.
Qed.

(** Only [createQ(k)] files the key [k] in [Q]. *)
Lemma exec_Q_absent py c self k :
  c ≠ call_createQ (PyTuple k) →
  Q self !! k = None → Q (exec py c self) !! k = None.
Proof.
  intros Hc Hk.
  destruct c as [d testing | p | st | st | st wp dr | st a r | env]; simpl.
  - rewrite reset_cases. by destruct testing.
  - by rewrite read_only_build_state.
  - by rewrite read_only_get_maxQ.
  - rewrite createQ_cases. destruct (learning self); [| done].
    destruct st as [k' | items]; [| done]. simpl.
    rewrite lookup_insert_ne; [done | congruence].
  - by rewrite choose_action_agent.
  - rewrite learn_cases. destruct (learning self); [| done].
    destruct st as [k' | items]; [| done].
    destruct (Q self !! k') as [row|] eqn:Hk'; [| done].
    destruct (row !! a); [| done]. simpl.
    rewrite lookup_insert_ne; [done | congruence].
  - by rewrite update_Q.
Qed.

Lemma run_Q_absent py calls self k :
  Forall (λ c, c ≠ call_createQ (PyTuple k)) calls →
  Q self !! k = None → Q (run py calls self) !! k = None.
Proof.
  revert self. induction calls as [|c calls IH]; intros self Hall Hk; [done |].
  apply Forall_cons in Hall as [Hc Hall].
  simpl. apply IH; [done |]. by apply exec_Q_absent.
Qed.

(** An agent that does not learn never writes to [Q]. *)
Lemma exec_Q_not_learning py c self :
  learning self = false → Q (exec py c self) = Q self.
Proof.
  intros Hl.
  destruct c as [d testing | p | st | st | st wp dr | st a r | env]; simpl.
  - rewrite reset_cases. by destruct testing.
  - by rewrite read_only_build_state.
  - by rewrite read_only_get_maxQ.
  - by rewrite createQ_cases, Hl.
  - by rewrite choose_action_agent.
  - by rewrite learn_cases, Hl.
  - by rewrite update_Q.
Qed.

Lemma run_Q_not_learning py calls self :
  learning self = false → Q (run py calls self) = Q self.
Proof.
  revert self. induction calls as [|c calls IH]; intros self Hl; [done |].
  simpl. rewrite IH; [by apply exec_Q_not_learning |].
  by rewrite exec_learning.
Qed.

Lemma run_updates_Q py steps self :
  Q (run py (call_update <$> steps) self) = Q self.
Proof.
  revert self. induction steps as [|env steps IH]; intros self; [done |].
  simpl. by rewrite IH, update_Q.
Qed.

(** ** Rows with the four actions *)

Lemma lookup_row_of n f l r (a : Atom) :
  row_of n f l r !! a =
  if decide (a = None) then Some n
  else if decide (a = Some "forward") then Some f
  else if decide (a = Some "left") then Some l
  else if decide (a = Some "right") then Some r
  else None.
Proof.
  unfold row_of. rewrite !lookup_insert, lookup_singleton.
  repeat case_decide; congruence.
Qed.

Lemma row_of_nonempty n f l r : row_of n f l r ≠ ∅.
Proof. apply insert_non_empty. Qed.

Lemma new_row_row_of : new_row = row_of 0 0 0 0.
Proof. done. Qed.

(** ** The best actions are the actions of maximal value *)

Lemma best_actions_max (row : Row) a :
  a ∈ best_actions row →
  ∃ v, row !! a = Some v ∧ ∀ a' v', row !! a' = Some v' → (v' <= v)%R.
Proof.
  intros (v & Hv & Hm)%elem_of_best_actions.
  assert (row ≠ ∅) as Hne. { intros ->. by rewrite lookup_empty in Hv. }
  destruct (row_max_spec row Hne) as (a0 & v0 & _ & Hm0 & Hall).
  exists v. split; [done |]. rewrite Hm in Hm0. by injection Hm0 as ->.
Qed.

Lemma max_best_actions (row : Row) a v :
  row !! a = Some v →
  (∀ a' v', row !! a' = Some v' → (v' <= v)%R) →
  a ∈ best_actions row.
Proof.
  intros Hv Hall.
  assert (row ≠ ∅) as Hne. { intros ->. by rewrite lookup_empty in Hv. }
  destruct (row_max_spec row Hne) as (a0 & v0 & Hv0 & Hm0 & Hall0).
  apply elem_of_best_actions. exists v. split; [done |].
  rewrite Hm0. f_equal. specialize (Hall _ _ Hv0). specialize (Hall0 _ _ Hv).
  lra.
Qed.

(** * The claims *)

(** C1 (the code departs from the claim).  With [epsilon = 1.0] every draw
    of a number in [0,1) is below [epsilon], so an epsilon-greedy choice
    is a random valid action.  The code compares the function
    [random.random] itself with [epsilon]: under Python 2 the agent
    always exploits and returns ['forward'], whatever the generator
    yields; under Python 3 the comparison raises TypeError. *)
Theorem choose_action_ignores_epsilon :
  epsilon explorer = 1%R ∧ learning explorer = true
  ∧ ∀ wp d,
      (choose_action Python2 (PyTuple example_state) wp d explorer).1
      = Ok (Some "forward")
      ∧ (choose_action Python3 (PyTuple example_state) wp d explorer).1
        = Raise TypeError.
Proof.
  split; [done |]. split; [done |]. intros wp d. split.
  - rewrite (choose_action_python2 example_state (row_of 0 1 0 0));
      [| done | apply lookup_singleton_eq].
    destruct (random_choice_returns (best_actions (row_of 0 1 0 0)) d
                (set_next_waypoint wp (set_state (PyTuple example_state) explorer)))
      as (a & Ha & ->).
    { apply best_actions_nonempty, row_of_nonempty. }
    simpl. f_equal.
    apply best_actions_max in Ha as (v & Hv & Hall).
    specialize (Hall (Some "forward") 1%R). rewrite lookup_row_of in Hall, Hv.
    simpl in Hall. specialize (Hall eq_refl).
    repeat case_decide; try done; simplify_eq; lra.
  - by rewrite choose_action_python3.
Qed.

(** C8, as stated, fails: a call of [choose_action] with a new state and
    waypoint leaves an agent that differs from the agent before it. *)
Lemma choose_action_assigns_state :
  let before :=
    (choose_action Python2 (PyTuple example_state) (Some "forward") 0
       (init_default env_valid_actions)).2 in
  (choose_action Python2 (PyTuple other_state) (Some "left") 0 before).2
  ≠ before.
Proof.
  intros before H. apply (f_equal state) in H.
  unfold before in H. rewrite !choose_action_agent in H. discriminate H.
Qed.

(** C8 (amended).  [choose_action] assigns the attributes [state] and
    [next_waypoint] and nothing else: the Q-table, [epsilon], [alpha],
    the trial counter, [learning] and [valid_actions] are after the call
    what they were before it, for every state, interpreter and output of
    the random generator, whether the call returns or raises. *)
Theorem choose_action_frame py (s : PyValue) wp d self :
  let self' := (choose_action py s wp d self).2 in
  valid_actions self' = valid_actions self
  ∧ learning self' = learning self
  ∧ Q self' = Q self
  ∧ epsilon self' = epsilon self
  ∧ alpha self' = alpha self
  ∧ t self' = t self
  ∧ state self' = Some s
  ∧ next_waypoint self' = wp.
Proof. intros self'. unfold self'. by rewrite choose_action_agent. Qed.

(** C9.  A learning agent run by Python 2 exploits at every call.  For a
    state of the Q-table whose row is not empty, [choose_action] returns
    an action, and the value of that action is the largest of the row;
    and every action whose value is the largest of the row is returned
    for some output of the random generator. *)
Theorem choose_action_exploits (self : LearningAgent) (k : list Atom)
    (row : Row) (wp : Atom) :
  learning self = true →
  Q self !! k = Some row →
  row ≠ ∅ →
  (∀ d, ∃ a v,
     (choose_action Python2 (PyTuple k) wp d self).1 = Ok a
     ∧ row !! a = Some v
     ∧ ∀ a' v', row !! a' = Some v' → (v' <= v)%R)
  ∧ (∀ a v,
       row !! a = Some v →
       (∀ a' v', row !! a' = Some v' → (v' <= v)%R) →
       ∃ d, (choose_action Python2 (PyTuple k) wp d self).1 = Ok a).
Proof.
  intros Hl Hk Hne. split.
  - intros d. rewrite (choose_action_python2 k row wp d self Hl Hk).
    destruct (random_choice_returns (best_actions row) d
                (set_next_waypoint wp (set_state (PyTuple k) self)))
      as (a & Ha & ->); [by apply best_actions_nonempty |].
    apply best_actions_max in Ha as (v & Hv & Hall). by exists a, v.
  - intros a v Hv Hall.
    destruct (random_choice_reaches (best_actions row) a
                (set_next_waypoint wp (set_state (PyTuple k) self)))
      as [d Hd]; [by eapply max_best_actions |].
    exists d. by rewrite (choose_action_python2 k row wp d self Hl Hk), Hd.
Qed.

Lemma choose_action_exploits_witness :
  learning tied = true
  ∧ Q tied !! example_state = Some (row_of 0 1 1 0)
  ∧ row_of 0 1 1 0 ≠ ∅
  ∧ (∀ d, ∃ a v,
       (choose_action Python2 (PyTuple example_state) None d tied).1 = Ok a
       ∧ row_of 0 1 1 0 !! a = Some v
       ∧ ∀ a' v', row_of 0 1 1 0 !! a' = Some v' → (v' <= v)%R)
  ∧ (∀ a v,
       row_of 0 1 1 0 !! a = Some v →
       (∀ a' v', row_of 0 1 1 0 !! a' = Some v' → (v' <= v)%R) →
       ∃ d, (choose_action Python2 (PyTuple example_state) None d tied).1 = Ok a).
Proof.
  assert (learning tied = true) as Hl by reflexivity.
  assert (Q tied !! example_state = Some (row_of 0 1 1 0)) as Hk
    by apply lookup_singleton_eq.
  pose proof (row_of_nonempty 0 1 1 0) as Hne.
  split; [exact Hl |]. split; [exact Hk |]. split; [exact Hne |].
  exact (choose_action_exploits tied example_state (row_of 0 1 1 0) None Hl Hk Hne).
Defined.

(** C2 (the code departs from the claim).  On a clear road [build_state]
    returns the list [['forward', None, None, None]], with [None] kept
    and the other components as strings, but a list and not a tuple: it
    cannot be hashed, [createQ] raises TypeError on it in a learning
    agent, and so does every [update]. *)
Theorem build_state_returns_list :
  build_state clear_road learner = (Ok (PyList example_state), learner)
  ∧ hash_key (PyList example_state) = Raise TypeError
  ∧ createQ (PyList example_state) learner = (Raise TypeError, learner)
  ∧ ∀ py d reward,
      update py (mkStep clear_road d reward) learner = (Raise TypeError, learner).
Proof.
  assert (build_state clear_road learner = (Ok (PyList example_state), learner))
    as Hb.
  { rewrite build_state_cases. unfold clear_road, inputs.
    rewrite (lookup_insert_ne _ "light" "right") by done.
    rewrite (lookup_insert_ne _ "oncoming" "right") by done.
    rewrite (lookup_insert_ne _ "left" "right") by done.
    rewrite lookup_singleton_eq.
    rewrite (lookup_insert_ne _ "light" "left") by done.
    rewrite (lookup_insert_ne _ "oncoming" "left") by done.
    rewrite lookup_insert_eq.
    rewrite (lookup_insert_ne _ "light" "oncoming") by done.
    rewrite lookup_insert_eq. done. }
  split; [exact Hb |]. split; [done |]. split; [done |].
  intros py d reward. unfold update, bind at 1. cbn [percept]. by rewrite Hb.
Qed.

(** C3.  In a learning agent, [createQ] on a state (a tuple) that is not
    in the Q-table files it with the row [new_row], whose entries are the
    four actions, each with the value 0.0, and touches no other state; on
    a state that is in the Q-table it changes nothing, so a second call
    leaves the four values as they are; in an agent that does not learn
    it changes nothing, whatever the state. *)
Theorem createQ_initialises_once (k : list Atom) :
  (∀ self, learning self = true → Q self !! k = None →
     createQ (PyTuple k) self
     = (Ok tt, set_Q (<[k := new_row]> (Q self)) self))
  ∧ (∀ a : Atom,
       new_row !! a
       = if decide (a ∈ env_valid_actions) then Some 0%R else None)
  ∧ size new_row = 4%nat
  ∧ (∀ self (row : Row), learning self = true → Q self !! k = Some row →
       createQ (PyTuple k) self = (Ok tt, self))
  ∧ (∀ self, learning self = true →
       let once := (createQ (PyTuple k) self).2 in
       createQ (PyTuple k) once = (Ok tt, once))
  ∧ (∀ self s, learning self = false → createQ s self = (Ok tt, self)).
Proof.
  assert (∀ self (row : Row), learning self = true → Q self !! k = Some row →
            createQ (PyTuple k) self = (Ok tt, self)) as Hpresent.
  { intros self row Hl Hk. rewrite createQ_cases, Hl, Hk. simpl.
    rewrite (insert_id (Q self) k row Hk). by destruct self. }
  split; [| split; [| split; [| split; [| split]]]].
  - intros self Hl Hk. by rewrite createQ_cases, Hl, Hk.
  - intros a. rewrite new_row_row_of, lookup_row_of. unfold env_valid_actions.
    destruct (decide (a ∈ [None; Some "forward"; Some "left"; Some "right"]))
      as [Hin | Hout].
    + rewrite !elem_of_cons in Hin.
      destruct Hin as [-> | [-> | [-> | [-> | Hin]]]]; [done .. |].
      by apply not_elem_of_nil in Hin.
    + rewrite !not_elem_of_cons in Hout. destruct Hout as (? & ? & ? & ? & _).
      by rewrite !decide_False by done.
  - unfold new_row.
    rewrite !map_size_insert_None, map_size_singleton; [done | ..];
      by rewrite ?lookup_insert_ne, ?lookup_singleton_ne.
  - exact Hpresent.
  - intros self Hl once.
    assert (once = set_Q (<[k := default new_row (Q self !! k)]> (Q self)) self)
      as -> by (unfold once; by rewrite createQ_cases, Hl).
    eapply Hpresent; [done |]. simpl. apply lookup_insert_eq.
  - intros self s Hl. by rewrite createQ_cases, Hl.
Qed.

Lemma createQ_initialises_once_witness :
  learning learner = true ∧ Q learner !! example_state = None
  ∧ learning explorer = true
  ∧ Q explorer !! example_state = Some (row_of 0 1 0 0)
  ∧ learning (init_default env_valid_actions) = false
  ∧ createQ (PyTuple example_state) learner
    = (Ok tt, set_Q (<[example_state := new_row]> (Q learner)) learner)
  ∧ createQ (PyTuple example_state) explorer = (Ok tt, explorer)
  ∧ createQ (PyTuple example_state) (init_default env_valid_actions)
    = (Ok tt, init_default env_valid_actions).
Proof.
  destruct (createQ_initialises_once example_state)
    as (Hnew & _ & _ & Hpresent & _ & Hoff).
  assert (learning learner = true) as H1 by reflexivity.
  assert (Q learner !! example_state = None) as H2 by apply lookup_empty.
  assert (learning explorer = true) as H3 by reflexivity.
  assert (Q explorer !! example_state = Some (row_of 0 1 0 0)) as H4
    by apply lookup_singleton_eq.
  assert (learning (init_default env_valid_actions) = false) as H5
    by reflexivity.
  split; [exact H1 |]. split; [exact H2 |]. split; [exact H3 |].
  split; [exact H4 |]. split; [exact H5 |].
  split; [exact (Hnew learner H1 H2) |].
  split; [exact (Hpresent explorer _ H3 H4) |].
  exact (Hoff _ (PyTuple example_state) H5).
Defined.

(** C4.  In a learning agent, for a state and an action that have an
    entry [old] in the Q-table, [learn] returns after setting that entry
    to [old + alpha * (reward - old)]; every other entry of the row and
    every other row is as before.  The new value is made of the old
    value, [alpha] and the reward alone: no value of another state
    enters it. *)
Theorem learn_moves_value_toward_reward (self : LearningAgent)
    (k : list Atom) (row : Row) (a : Atom) (old reward : R) :
  learning self = true →
  Q self !! k = Some row →
  row !! a = Some old →
  let new := (old + alpha self * (reward - old))%R in
  let self' := (learn (PyTuple k) a reward self).2 in
  learn (PyTuple k) a reward self
  = (Ok tt, set_Q (<[k := <[a := new]> row]> (Q self)) self)
  ∧ (∃ row' : Row,
       Q self' !! k = Some row' ∧ row' !! a = Some new
       ∧ ∀ a', a' ≠ a → row' !! a' = row !! a')
  ∧ (∀ k', k' ≠ k → Q self' !! k' = Q self !! k').
Proof.
  intros Hl Hk Ha new self'. unfold self'.
  rewrite learn_cases, Hl, Hk, Ha. fold new. simpl.
  split; [done |]. split.
  - exists (<[a := new]> row). rewrite lookup_insert_eq. split; [done |].
    rewrite lookup_insert_eq. split; [done |].
    intros a' Hne. by rewrite lookup_insert_ne.
  - intros k' Hne. by rewrite lookup_insert_ne.
Qed.

Lemma learn_moves_value_toward_reward_witness :
  learning explorer = true
  ∧ Q explorer !! example_state = Some (row_of 0 1 0 0)
  ∧ row_of 0 1 0 0 !! Some "forward" = Some 1%R
  ∧ learn (PyTuple example_state) (Some "forward") 2 explorer
    = (Ok tt,
       set_Q (<[example_state :=
                  <[Some "forward" := (1 + alpha explorer * (2 - 1))%R]>
                    (row_of 0 1 0 0)]> (Q explorer)) explorer).
Proof.
  assert (learning explorer = true) as H1 by reflexivity.
  assert (Q explorer !! example_state = Some (row_of 0 1 0 0)) as H2
    by apply lookup_singleton_eq.
  assert (row_of 0 1 0 0 !! Some "forward" = Some 1%R) as H3.
  { rewrite lookup_row_of. reflexivity. }
  split; [exact H1 |]. split; [exact H2 |]. split; [exact H3 |].
  exact (proj1 (learn_moves_value_toward_reward explorer example_state
                  (row_of 0 1 0 0) (Some "forward") 1 2 H1 H2 H3)).
Defined.

(** C5.  [reset] with [testing=True] returns with [epsilon] and [alpha]
    both 0 and the Q-table as it was; after it, however many times
    [update] is called and whatever the environment senses, draws and
    rewards, the Q-table stays what it was: one more [update] leaves it
    as the updates before left it. *)
Theorem testing_reset_freezes_Q py self destination (steps : list Step) :
  let frozen := (reset destination true self).2 in
  let later := run py (call_update <$> steps) frozen in
  reset destination true self = (Ok tt, frozen)
  ∧ epsilon frozen = 0%R
  ∧ alpha frozen = 0%R
  ∧ Q frozen = Q self
  ∧ Q later = Q frozen
  ∧ ∀ env, Q (update py env later).2 = Q later.
Proof.
  intros frozen later. unfold later, frozen.
  rewrite reset_cases. simpl.
  split; [done |]. split; [done |]. split; [done |]. split; [done |].
  split; [by rewrite run_updates_Q |].
  intros env. by rewrite update_Q.
Qed.

(** With a state that is a tuple, the three calls [update] makes on it
    leave a frozen agent's Q-table as it was when the state is in it. *)
Lemma frozen_step_on_key (py : Python) (self : LearningAgent) (k : list Atom) (row : Row)
    (wp : Atom) (d : nat) (a : Atom) (r : R) :
  alpha self = 0%R → Q self !! k = Some row →
  let after_createQ := (createQ (PyTuple k) self).2 in
  let after_choose := (choose_action py (PyTuple k) wp d after_createQ).2 in
  Q (learn (PyTuple k) a r after_choose).2 = Q self.
Proof.
  intros Hz Hk after_createQ after_choose.
  assert (after_createQ = self) as Hc.
  { unfold after_createQ. rewrite createQ_cases.
    destruct (learning self); [| done]. rewrite Hk. simpl.
    rewrite (insert_id (Q self) k row Hk). by destruct self. }
  rewrite learn_alpha_zero.
  - unfold after_choose. by rewrite choose_action_agent, Hc.
  - unfold after_choose. by rewrite choose_action_agent, Hc.
Qed.

Lemma INR_fact_8 : INR (fact 8) = 40320%R.
Proof. rewrite !fact_simpl, !mult_INR. simpl. lra. Qed.

Lemma cos_term_4 x : cos_term x 4 = (x ^ 8 / 40320)%R.
Proof.
  unfold cos_term. change (2 * 4)%nat with 8%nat. rewrite INR_fact_8.
  simpl. field.
Qed.

Lemma cos_half_bounds : (0.87756 <= cos (1 / 2) < 0.87764)%R.
Proof.
  destruct (pre_cos_bound (1 / 2) 0) as [_ Hup]; [lra | lra |].
  destruct (pre_cos_bound (1 / 2) 1) as [Hlo _]; [lra | lra |].
  unfold cos_approx, cos_term in Hup, Hlo. simpl in Hup, Hlo.
  split; lra.
Qed.

Lemma cos_one_bounds : (0.54026 <= cos 1 < 0.54034)%R.
Proof.
  destruct (pre_cos_bound 1 1) as [Hlo Hup]; [lra | lra |].
  split.
  - unfold cos_approx, cos_term in Hlo. simpl in Hlo. lra.
  - change (2 * (1 + 1))%nat with 4%nat in Hup.
    unfold cos_approx in Hup. cbn [sum_f_R0] in Hup.
    rewrite cos_term_4 in Hup. unfold cos_term in Hup. simpl in Hup. lra.
Qed.

(** C6.  [reset] with [testing=False] returns with the trial counter one
    higher, [alpha] as it was, and [epsilon] set to [|cos(alpha * t)|]
    for the new [t]; the Q-table is as it was.  For an agent made with
    [alpha=0.5], [epsilon] is [|cos(0.5)|] after the first such reset,
    which is 0.8776 to four decimal places, and [|cos(1.0)|] after the
    second, which is 0.5403. *)
Theorem reset_training_schedule :
  (∀ self destination,
     let self' := (reset destination false self).2 in
     reset destination false self = (Ok tt, self')
     ∧ t self' = (t self + 1)%Z
     ∧ alpha self' = alpha self
     ∧ epsilon self' = Rabs (cos (alpha self * IZR (t self + 1)))
     ∧ Q self' = Q self)
  ∧ (∀ actions learning epsilon0 d1 d2,
       let first := (reset d1 false (init actions learning epsilon0 (1 / 2))).2 in
       let second := (reset d2 false first).2 in
       t first = 1%Z
       ∧ epsilon first = Rabs (cos (1 / 2))
       ∧ (Rabs (epsilon first - 0.8776) < 0.00005)%R
       ∧ t second = 2%Z
       ∧ epsilon second = Rabs (cos 1)
       ∧ (Rabs (epsilon second - 0.5403) < 0.00005)%R).
Proof.
  split.
  - intros self destination self'. unfold self'. by rewrite reset_cases.
  - intros actions l epsilon0 d1 d2 first second.
    assert (epsilon first = Rabs (cos (1 / 2))) as H1.
    { unfold first. rewrite reset_cases. simpl. do 2 f_equal.
      change (0 + 1)%Z with 1%Z. lra. }
    assert (epsilon second = Rabs (cos 1)) as H2.
    { unfold second, first. rewrite !reset_cases. simpl. do 2 f_equal.
      change (0 + 1 + 1)%Z with 2%Z. lra. }
    pose proof cos_half_bounds as Hh. pose proof cos_one_bounds as Ho.
    split; [done |]. split; [exact H1 |]. split.
    { rewrite H1, (Rabs_pos_eq (cos (1 / 2))) by lra.
      apply Rabs_def1; lra. }
    split; [done |]. split; [exact H2 |].
    rewrite H2, (Rabs_pos_eq (cos 1)) by lra.
    apply Rabs_def1; lra.
Qed.

Lemma choose_action_absent (k : list Atom) wp d self :
  learning self = true → Q self !! k = None →
  choose_action Python2 (PyTuple k) wp d self
  = (Raise KeyError, set_next_waypoint wp (set_state (PyTuple k) self)).
Proof.
  intros Hl Hk. rewrite choose_action_unfold.
  set (self' := set_next_waypoint wp (set_state (PyTuple k) self)).
  assert (Q self' !! k = None) as Hk' by done.
  unfold choose_action_select, bind at 1, attr at 1.
  replace (learning self') with true by done.
  unfold bind at 1, attr at 1. unfold bind at 1, lift at 1. simpl.
  unfold bind at 1. by rewrite (get_maxQ_absent _ _ Hk').
Qed.

(** C7.  Take an agent at any point of its life: made by the
    constructor, then called any number of times, in any order.  If no
    call of [createQ] in learning mode was on the state [k], then
    [get_maxQ] on [k] raises KeyError; in a learning agent so does
    [learn] on [k], whatever the action and the reward; neither changes
    the agent nor puts a value in place of the missing one, and
    [choose_action], which calls [get_maxQ], lets the KeyError through. *)
Theorem lookup_error_propagates py actions (l : bool) e a
    (calls : list Call) (k : list Atom) :
  (l = true → Forall (λ c, c ≠ call_createQ (PyTuple k)) calls) →
  let self := run py calls (init actions l e a) in
  get_maxQ (PyTuple k) self = (Raise KeyError, self)
  ∧ (l = true →
     ∀ action reward,
       learn (PyTuple k) action reward self = (Raise KeyError, self))
  ∧ (l = true →
     ∀ wp d,
       (choose_action Python2 (PyTuple k) wp d self).1 = Raise KeyError).
Proof.
  intros Hcalls self.
  assert (Q self !! k = None) as Hk.
  { unfold self. destruct l.
    - apply run_Q_absent; [by apply Hcalls |]. apply lookup_empty.
    - rewrite run_Q_not_learning by done. apply lookup_empty. }
  assert (learning self = l) as Hl.
  { unfold self. by rewrite run_learning. }
  split; [by apply get_maxQ_absent |]. split.
  - intros -> action reward. by rewrite learn_cases, Hl, Hk.
  - intros -> wp d. by rewrite choose_action_absent.
Qed.

Lemma lookup_error_propagates_witness :
  let calls :=
    [call_createQ (PyTuple other_state); call_reset None false;
     call_learn (PyTuple other_state) None 1;
     call_update (mkStep clear_road 0 (λ _, 1%R))] in
  let self := run Python2 calls learner in
  Forall (λ c, c ≠ call_createQ (PyTuple example_state)) calls
  ∧ get_maxQ (PyTuple example_state) self = (Raise KeyError, self)
  ∧ learn (PyTuple example_state) (Some "forward") 1 self
    = (Raise KeyError, self).
Proof.
  intros calls self.
  assert (Forall (λ c, c ≠ call_createQ (PyTuple example_state)) calls) as H.
  { unfold calls. repeat constructor; discriminate. }
  destruct (lookup_error_propagates Python2 env_valid_actions true 1 (1 / 2)
              calls example_state (λ _, H)) as (Hget & Hlearn & _).
  split; [exact H |]. split; [exact Hget |].
  exact (Hlearn eq_refl (Some "forward") 1%R).
Defined.

(** C10.  After [reset] with [testing=True], whatever calls follow,
    [alpha] is 0: a later [reset] with [testing=False] sets [epsilon] to
    [|cos(0 * t)| = 1], and a later [learn] leaves the Q-table, and the
    whole agent, as it was. *)
Theorem testing_reset_is_permanent py self destination (calls : list Call) :
  let later := run py calls (reset destination true self).2 in
  alpha later = 0%R
  ∧ (∀ d, epsilon (reset d false later).2 = 1%R)
  ∧ (∀ s a r, (learn s a r later).2 = later).
Proof.
  intros later.
  assert (alpha later = 0%R) as Hz.
  { unfold later. apply run_alpha_zero. by rewrite reset_cases. }
  split; [exact Hz |]. split.
  - intros d. rewrite reset_cases. simpl.
    by rewrite Hz, Rmult_0_l, cos_0, Rabs_R1.
  - intros s a r. by apply learn_alpha_zero.
Qed.

(** * Further properties of the code *)

(** ** What a call leaves as it was *)

(** Case analysis on a call: each case is left with the agent after the
    call written out. *)
Ltac call_cases py c self :=
  let d := fresh "d" in
  let testing := fresh "testing" in
  let st := fresh "st" in
  let k := fresh "k" in
  let row := fresh "row" in
  let a := fresh "a" in
  let Hl := fresh "Hl" in
  let Hk := fresh "Hk" in
  let Ha := fresh "Ha" in
  let env := fresh "env" in
  destruct c as [d testing | ? | st | st | st ? ? | st a ? | env]; simpl;
  [ rewrite reset_cases; destruct testing; simpl
  | rewrite read_only_build_state
  | rewrite read_only_get_maxQ
  | rewrite createQ_cases; destruct (learning self) eqn:Hl;
    [ destruct st as [k | ?]; simpl | ]
  | rewrite choose_action_agent; simpl
  | rewrite learn_cases; destruct (learning self) eqn:Hl;
    [ destruct st as [k | ?];
      [ destruct (Q self !! k) as [row|] eqn:Hk;
        [ destruct (row !! a) eqn:Ha; simpl | ] | ] | ]
  | let H := fresh "H" in
    destruct (update_agent py env self) as [H | [? H]]; rewrite H; simpl ].

(** No call changes [valid_actions]. *)
Lemma exec_valid_actions py c self :
  valid_actions (exec py c self) = valid_actions self.
Proof. call_cases py c self; simpl; done. Qed.

(** The trial counter moves at a training reset, by one, and at no other
    call. *)
Lemma exec_t py c self :
  t (exec py c self) = (t self + if training_reset c then 1 else 0)%Z.
Proof. call_cases py c self; simpl; lia. Qed.

(** [epsilon] moves at a reset and at no other call. *)
Lemma exec_epsilon py c self :
  training_reset c = false → testing_reset c = false →
  epsilon (exec py c self) = epsilon self.
Proof. intros H1 H2. call_cases py c self; simpl; done. Qed.

Lemma filter_training_cons c calls :
  training_resets (c :: calls)
  = ((if training_reset c then 1 else 0) + training_resets calls)%Z.
Proof.
  unfold training_resets. rewrite filter_cons.
  destruct (training_reset c).
  - rewrite decide_True by done. rewrite length_cons. lia.
  - rewrite decide_False by done. lia.
Qed.

(** ** [get_maxQ] *)

(** X1.  For a state of the Q-table, [get_maxQ] returns without changing
    the agent.  On a row that has entries it returns the value of one of
    them, and no entry of the row is larger; on a row without entries it
    returns [float('-inf')]. *)
Theorem get_maxQ_returns_largest (self : LearningAgent) (k : list Atom)
    (row : Row) :
  Q self !! k = Some row →
  ∃ m, get_maxQ (PyTuple k) self = (Ok m, self)
       ∧ (row = ∅ → m = NegInf)
       ∧ (row ≠ ∅ → ∃ a v, row !! a = Some v ∧ m = Fin v ∧ largest row v).
Proof.
  intros Hk. exists (row_max row).
  split; [by apply get_maxQ_present |]. split.
  - intros ->. apply row_max_empty.
  - intros Hne. destruct (row_max_spec row Hne) as (a & v & Hv & Hm & Hall).
    by exists a, v.
Qed.

Lemma get_maxQ_returns_largest_witness :
  Q explorer !! example_state = Some (row_of 0 1 0 0)
  ∧ ∃ m, get_maxQ (PyTuple example_state) explorer = (Ok m, explorer)
         ∧ (row_of 0 1 0 0 = ∅ → m = NegInf)
         ∧ (row_of 0 1 0 0 ≠ ∅ →
            ∃ a v, row_of 0 1 0 0 !! a = Some v ∧ m = Fin v
                   ∧ largest (row_of 0 1 0 0) v).
Proof.
  assert (Q explorer !! example_state = Some (row_of 0 1 0 0)) as Hk
    by apply lookup_singleton_eq.
  split; [exact Hk |].
  exact (get_maxQ_returns_largest explorer example_state (row_of 0 1 0 0) Hk).
Defined.

(** ** [build_state] *)

(** X2.  [build_state] reads the waypoint and the entries ['right'],
    ['left'] and ['oncoming'] of the percept and nothing else: two
    percepts that agree on these give the same outcome, whatever the
    light and the deadline are. *)
Theorem build_state_ignores_light_and_deadline (p p' : Percept) self :
  waypoint p = waypoint p' →
  inputs p !! "right" = inputs p' !! "right" →
  inputs p !! "left" = inputs p' !! "left" →
  inputs p !! "oncoming" = inputs p' !! "oncoming" →
  build_state p self = build_state p' self.
Proof.
  intros Hw Hr Hl Ho. by rewrite !build_state_cases, Hw, Hr, Hl, Ho.
Qed.

Lemma build_state_ignores_light_and_deadline_witness :
  let p := clear_road in
  let p' := mkPercept (Some "forward") (<["light" := Some "red"]> (inputs clear_road)) 3 in
  inputs p !! "light" ≠ inputs p' !! "light"
  ∧ deadline p ≠ deadline p'
  ∧ build_state p learner = build_state p' learner.
Proof.
  intros p p'. split; [| split].
  - unfold p, p', clear_road, inputs.
    rewrite !lookup_insert_eq. discriminate.
  - discriminate.
  - apply build_state_ignores_light_and_deadline; [reflexivity | ..];
      unfold p'; cbn [inputs]; by rewrite lookup_insert_ne.
Defined.

(** X3.  [build_state] returns exactly when the percept has the entries
    ['right'], ['left'] and ['oncoming']: it then returns the list of the
    waypoint and these three, in this order; when one of them is missing
    it raises KeyError.  The agent is not changed either way. *)
Theorem build_state_needs_three_keys (p : Percept) self :
  (∀ r l o,
     inputs p !! "right" = Some r → inputs p !! "left" = Some l →
     inputs p !! "oncoming" = Some o →
     build_state p self = (Ok (PyList [waypoint p; r; l; o]), self))
  ∧ (inputs p !! "right" = None ∨ inputs p !! "left" = None
     ∨ inputs p !! "oncoming" = None →
     build_state p self = (Raise KeyError, self)).
Proof.
  split.
  - intros r l o Hr Hl Ho. by rewrite build_state_cases, Hr, Hl, Ho.
  - intros H. rewrite build_state_cases.
    destruct (inputs p !! "right"), (inputs p !! "left"),
      (inputs p !! "oncoming"); try done; by destruct H as [? | [? | ?]].
Qed.

Lemma build_state_needs_three_keys_witness :
  inputs red_light !! "right" = Some None
  ∧ inputs red_light !! "left" = Some (Some "forward")
  ∧ inputs red_light !! "oncoming" = Some None
  ∧ build_state red_light learner
    = (Ok (PyList [Some "forward"; None; Some "forward"; None]), learner)
  ∧ build_state (mkPercept None ∅ 0) learner = (Raise KeyError, learner).
Proof.
  assert (inputs red_light !! "right" = Some None) as Hr by reflexivity.
  assert (inputs red_light !! "left" = Some (Some "forward")) as Hl
    by reflexivity.
  assert (inputs red_light !! "oncoming" = Some None) as Ho by reflexivity.
  split; [exact Hr |]. split; [exact Hl |]. split; [exact Ho |]. split.
  - exact (proj1 (build_state_needs_three_keys red_light learner) _ _ _ Hr Hl Ho).
  - apply (proj2 (build_state_needs_three_keys (mkPercept None ∅ 0) learner)).
    left. reflexivity.
Defined.

(** ** [choose_action] in an agent that does not learn *)

(** X4.  In an agent that does not learn, [choose_action] never looks at
    the Q-table: for every state, hashable or not, it returns an element
    of [valid_actions], each element is returned for some output of the
    random generator, and it raises IndexError when [valid_actions] is
    empty. *)
Theorem choose_action_random_when_not_learning py (s : PyValue) (wp : Atom)
    (self : LearningAgent) :
  learning self = false →
  (valid_actions self = [] →
   ∀ d, (choose_action py s wp d self).1 = Raise IndexError)
  ∧ (valid_actions self ≠ [] →
     ∀ d, ∃ a, (choose_action py s wp d self).1 = Ok a
               ∧ a ∈ valid_actions self)
  ∧ (∀ a, a ∈ valid_actions self →
          ∃ d, (choose_action py s wp d self).1 = Ok a).
Proof.
  intros Hl. split; [| split].
  - intros Hnil d. rewrite choose_action_not_learning by done.
    by rewrite Hnil, random_choice_nil.
  - intros Hne d. rewrite choose_action_not_learning by done.
    destruct (random_choice_returns (valid_actions self) d
                (set_next_waypoint wp (set_state s self)) Hne)
      as (a & Ha & ->).
    by exists a.
  - intros a Ha.
    destruct (random_choice_reaches (valid_actions self) a
                (set_next_waypoint wp (set_state s self)) Ha) as [d Hd].
    exists d. by rewrite choose_action_not_learning, Hd.
Qed.

Lemma choose_action_random_when_not_learning_witness :
  learning (init_default env_valid_actions) = false
  ∧ valid_actions (init_default env_valid_actions) ≠ []
  ∧ ∀ d, ∃ a,
      (choose_action Python3 (PyList example_state) None d
         (init_default env_valid_actions)).1 = Ok a
      ∧ a ∈ valid_actions (init_default env_valid_actions).
Proof.
  assert (learning (init_default env_valid_actions) = false) as Hl
    by reflexivity.
  assert (valid_actions (init_default env_valid_actions) ≠ []) as Hne
    by discriminate.
  split; [exact Hl |]. split; [exact Hne |].
  exact (proj1 (proj2 (choose_action_random_when_not_learning Python3
                         (PyList example_state) None
                         (init_default env_valid_actions) Hl)) Hne).
Defined.

(** ** [update] *)

(** X5.  A learning agent never completes [update]: when the percept
    lacks one of the entries ['right'], ['left'], ['oncoming'] it raises
    KeyError, otherwise [createQ] raises TypeError on the list that
    [build_state] returned.  Either way no action is chosen, no reward is
    asked for, and the agent is left exactly as it was. *)
Theorem update_raises_when_learning py (env : Step) (self : LearningAgent) :
  learning self = true →
  (is_Some (inputs (percept env) !! "right")
   ∧ is_Some (inputs (percept env) !! "left")
   ∧ is_Some (inputs (percept env) !! "oncoming") →
   update py env self = (Raise TypeError, self))
  ∧ (inputs (percept env) !! "right" = None
     ∨ inputs (percept env) !! "left" = None
     ∨ inputs (percept env) !! "oncoming" = None →
     update py env self = (Raise KeyError, self)).
Proof.
  intros Hl. split.
  - intros ([r Hr] & [l Hl'] & [o Ho]).
    unfold update, bind at 1.
    rewrite build_state_cases, Hr, Hl', Ho.
    unfold bind at 1. by rewrite createQ_cases, Hl.
  - intros H. unfold update, bind at 1. rewrite build_state_cases.
    destruct (inputs (percept env) !! "right"),
      (inputs (percept env) !! "left"),
      (inputs (percept env) !! "oncoming");
      try done; by destruct H as [? | [? | ?]].
Qed.

Lemma update_raises_when_learning_witness :
  learning explorer = true
  ∧ is_Some (inputs clear_road !! "right")
  ∧ is_Some (inputs clear_road !! "left")
  ∧ is_Some (inputs clear_road !! "oncoming")
  ∧ update Python2 (mkStep clear_road 0 (λ _, 2%R)) explorer
    = (Raise TypeError, explorer).
Proof.
  assert (learning explorer = true) as Hl by reflexivity.
  assert (is_Some (inputs clear_road !! "right")) as Hr by (by eexists).
  assert (is_Some (inputs clear_road !! "left")) as Hl' by (by eexists).
  assert (is_Some (inputs clear_road !! "oncoming")) as Ho by (by eexists).
  split; [exact Hl |]. split; [exact Hr |]. split; [exact Hl' |].
  split; [exact Ho |].
  exact (proj1 (update_raises_when_learning Python2
                  (mkStep clear_road 0 (λ _, 2%R)) explorer Hl)
           (conj Hr (conj Hl' Ho))).
Defined.

(** X6.  In an agent that does not learn, with a percept that has the
    three entries, [update] returns when [valid_actions] is not empty and
    raises IndexError when it is; either way the agent after it is the
    agent before it with [state] set to the list [build_state] returned
    and [next_waypoint] to the waypoint: the Q-table, [epsilon], [alpha]
    and the trial counter are untouched, whatever the reward. *)
Theorem update_when_not_learning py (env : Step) (self : LearningAgent) r l o :
  learning self = false →
  inputs (percept env) !! "right" = Some r →
  inputs (percept env) !! "left" = Some l →
  inputs (percept env) !! "oncoming" = Some o →
  let after :=
    set_next_waypoint (waypoint (percept env))
      (set_state (PyList [waypoint (percept env); r; l; o]) self) in
  (valid_actions self ≠ [] → update py env self = (Ok tt, after))
  ∧ (valid_actions self = [] → update py env self = (Raise IndexError, after)).
Proof.
  intros Hl Hr Hl' Ho after.
  assert (∀ result,
            random_choice (valid_actions self) (draw env) after = (result, after) →
            update py env self
            = (match result with Ok _ => Ok tt | Raise e => Raise e end, after))
    as Hupdate.
  { intros result Hc. unfold update, bind at 1.
    rewrite build_state_cases, Hr, Hl', Ho.
    unfold bind at 1. rewrite createQ_cases, Hl.
    unfold bind at 1. rewrite choose_action_not_learning by done.
    fold after. rewrite Hc. destruct result as [a | e]; [| done].
    rewrite learn_cases. simpl. by rewrite Hl. }
  split.
  - intros Hne.
    destruct (random_choice_returns (valid_actions self) (draw env) after Hne)
      as (a & _ & Hc).
    by rewrite (Hupdate _ Hc).
  - intros Hnil. apply (Hupdate (Raise IndexError)).
    by rewrite Hnil, random_choice_nil.
Qed.

Lemma update_when_not_learning_witness :
  let self := init_default env_valid_actions in
  let env := mkStep red_light 7 (λ _, (-10)%R) in
  learning self = false
  ∧ inputs (percept env) !! "right" = Some None
  ∧ inputs (percept env) !! "left" = Some (Some "forward")
  ∧ inputs (percept env) !! "oncoming" = Some None
  ∧ valid_actions self ≠ []
  ∧ update Python2 env self
    = (Ok tt,
       set_next_waypoint (Some "forward")
         (set_state (PyList [Some "forward"; None; Some "forward"; None]) self)).
Proof.
  intros self env.
  assert (learning self = false) as Hl by reflexivity.
  assert (inputs (percept env) !! "right" = Some None) as Hr by reflexivity.
  assert (inputs (percept env) !! "left" = Some (Some "forward")) as Hl'
    by reflexivity.
  assert (inputs (percept env) !! "oncoming" = Some None) as Ho by reflexivity.
  assert (valid_actions self ≠ []) as Hne by discriminate.
  split; [exact Hl |]. split; [exact Hr |]. split; [exact Hl' |].
  split; [exact Ho |]. split; [exact Hne |].
  exact (proj1 (update_when_not_learning Python2 env self _ _ _ Hl Hr Hl' Ho) Hne).
Defined.

(** ** [learn] *)

(** X7.  [learn] never adds an entry.  In a learning agent it raises
    KeyError, and changes nothing, when the state is in the Q-table but
    its row has no entry for the action; in an agent that does not learn
    it returns without reading or writing anything, for every state
    (hashable or not, in the Q-table or not), action and reward. *)
Theorem learn_adds_no_entry (self : LearningAgent) :
  (learning self = true →
   ∀ (k : list Atom) (row : Row) (a : Atom) reward,
     Q self !! k = Some row → row !! a = None →
     learn (PyTuple k) a reward self = (Raise KeyError, self))
  ∧ (learning self = false →
     ∀ s a reward, learn s a reward self = (Ok tt, self)).
Proof.
  split.
  - intros Hl k row a reward Hk Ha. by rewrite learn_cases, Hl, Hk, Ha.
  - intros Hl s a reward. by rewrite learn_cases, Hl.
Qed.

Lemma learn_adds_no_entry_witness :
  learning explorer = true
  ∧ Q explorer !! example_state = Some (row_of 0 1 0 0)
  ∧ row_of 0 1 0 0 !! Some "backward" = None
  ∧ learn (PyTuple example_state) (Some "backward") 5 explorer
    = (Raise KeyError, explorer)
  ∧ learning (init_default env_valid_actions) = false
  ∧ learn (PyList example_state) None 5 (init_default env_valid_actions)
    = (Ok tt, init_default env_valid_actions).
Proof.
  assert (learning explorer = true) as Hl by reflexivity.
  assert (Q explorer !! example_state = Some (row_of 0 1 0 0)) as Hk
    by apply lookup_singleton_eq.
  assert (row_of 0 1 0 0 !! Some "backward" = None) as Ha.
  { rewrite lookup_row_of. reflexivity. }
  assert (learning (init_default env_valid_actions) = false) as Hoff
    by reflexivity.
  split; [exact Hl |]. split; [exact Hk |]. split; [exact Ha |]. split.
  - exact (proj1 (learn_adds_no_entry explorer) Hl _ _ _ 5%R Hk Ha).
  - split; [exact Hoff |].
    exact (proj2 (learn_adds_no_entry (init_default env_valid_actions)) Hoff
             (PyList example_state) None 5%R).
Defined.





(** ** Invariants of a run *)

Lemma complete_new_row : complete_row new_row.
Proof.
  intros a. rewrite new_row_row_of, lookup_row_of. unfold env_valid_actions.
  destruct (decide (a ∈ [None; Some "forward"; Some "left"; Some "right"]))
    as [Hin | Hout].
  - split; [done |]. intros _. rewrite !elem_of_cons in Hin.
    destruct Hin as [-> | [-> | [-> | [-> | Hin]]]]; try (by eexists).
    by apply not_elem_of_nil in Hin.
  - split; [| done]. rewrite !not_elem_of_cons in Hout.
    destruct Hout as (? & ? & ? & ? & _).
    rewrite !decide_False by done. by intros [? ?].
Qed.

Lemma complete_row_insert (row : Row) (a : Atom) (old new : R) :
  row !! a = Some old → complete_row row → complete_row (<[a := new]> row).
Proof.
  intros Ha Hrow a'. rewrite <- (Hrow a'), lookup_insert.
  case_decide; [| done]. subst a'. rewrite Ha. split; by eexists.
Qed.

Lemma exec_complete_rows (py : Python) (c : Call) (self : LearningAgent) :
  (∀ k row, Q self !! k = Some row → complete_row row) →
  ∀ k row, Q (exec py c self) !! k = Some row → complete_row row.
Proof.
  intros Hinv k0 row0. call_cases py c self; try apply Hinv.
  - rewrite lookup_insert. case_decide; [| apply Hinv].
    intros [= <-]. destruct (Q self !! k) as [row|] eqn:Hk; simpl.
    + by eapply Hinv.
    + apply complete_new_row.
  - rewrite lookup_insert. case_decide; [| apply Hinv].
    intros [= <-]. eapply complete_row_insert; [done |]. by eapply Hinv.
Qed.

Lemma exec_Q_present (py : Python) (c : Call) (self : LearningAgent) (k : list Atom) :
  is_Some (Q self !! k) → is_Some (Q (exec py c self) !! k).
Proof.
  intros Hk0. call_cases py c self; try done.
  - rewrite lookup_insert. by case_decide.
  - rewrite lookup_insert. by case_decide.
Qed.

Lemma run_t py (calls : list Call) (self : LearningAgent) :
  t (run py calls self) = (t self + training_resets calls)%Z.
Proof.
  revert self. induction calls as [|c calls IH]; intros self.
  - unfold training_resets. simpl. lia.
  - simpl. rewrite IH, exec_t, filter_training_cons. lia.
Qed.

Lemma run_alpha_training py (calls : list Call) (self : LearningAgent) :
  Forall (λ c, testing_reset c = false) calls →
  alpha (run py calls self) = alpha self.
Proof.
  revert self. induction calls as [|c calls IH]; intros self Hall; [done |].
  apply Forall_cons in Hall as [Hte Hall].
  simpl. rewrite IH by done. apply exec_alpha. intros d ->. discriminate Hte.
Qed.

(** X10.  Every row of the Q-table has the four actions [None],
    ['forward'], ['left'], ['right'] and nothing else, at every point of
    the life of an agent: made by the constructor, then called any
    number of times, in any order. *)
Theorem rows_have_the_four_actions (py : Python) (actions : list Atom)
    (l : bool) (e a : R) (calls : list Call)
    (k : list Atom) (row : Row) :
  Q (run py calls (init actions l e a)) !! k = Some row →
  ∀ action : Atom, is_Some (row !! action) ↔ action ∈ env_valid_actions.
Proof.
  assert (∀ self, (∀ k row, Q self !! k = Some row → complete_row row) →
            ∀ k row, Q (run py calls self) !! k = Some row → complete_row row)
    as Hrun.
  { induction calls as [|c calls IH]; intros self Hinv; [done |].
    simpl. apply IH. by apply exec_complete_rows. }
  intros Hk. eapply (Hrun (init actions l e a)); [| exact Hk].
  intros k' row'. simpl. by rewrite lookup_empty.
Qed.

Lemma rows_have_the_four_actions_witness :
  let calls :=
    [call_createQ (PyTuple example_state);
     call_learn (PyTuple example_state) (Some "left") 2] in
  ∃ row : Row,
    Q (run Python2 calls learner) !! example_state = Some row
    ∧ ∀ action : Atom, is_Some (row !! action) ↔ action ∈ env_valid_actions.
Proof.
  intros calls.
  assert (is_Some (Q (run Python2 calls learner) !! example_state))
    as [row Hk].
  { unfold calls, run. cbn [foldl]. apply exec_Q_present.
    cbn [exec]. rewrite createQ_cases. simpl.
    rewrite lookup_insert_eq. by eexists. }
  exists row. split; [exact Hk |].
  exact (rows_have_the_four_actions Python2 env_valid_actions true 1 (1 / 2)
           calls example_state row Hk).
Defined.

(** X11.  A state that is in the Q-table stays in it: no call takes a
    state out of the Q-table. *)
Theorem Q_keeps_its_states (py : Python) (calls : list Call) (self : LearningAgent)
    (k : list Atom) :
  is_Some (Q self !! k) → is_Some (Q (run py calls self) !! k).
Proof.
  revert self. induction calls as [|c calls IH]; intros self Hk; [done |].
  simpl. apply IH. by apply exec_Q_present.
Qed.

Lemma Q_keeps_its_states_witness :
  is_Some (Q explorer !! example_state)
  ∧ is_Some
      (Q (run Python2
            [call_reset None true; call_createQ (PyTuple other_state);
             call_learn (PyTuple example_state) None 3;
             call_update (mkStep clear_road 1 (λ _, 0%R))] explorer)
         !! example_state).
Proof.
  assert (is_Some (Q explorer !! example_state)) as Hk.
  { exists (row_of 0 1 0 0). apply lookup_singleton_eq. }
  split; [exact Hk |].
  exact (Q_keeps_its_states Python2 _ explorer example_state Hk).
Defined.

Lemma exec_row_unchanged (py : Python) (c : Call) (self : LearningAgent) (k : list Atom) (row : Row) :
  (∀ a r, c ≠ call_learn (PyTuple k) a r) →
  Q self !! k = Some row → Q (exec py c self) !! k = Some row.
Proof.
  intros Hc Hk0. call_cases py c self; try done.
  - rewrite lookup_insert. case_decide as Heq; [| done]. by rewrite Heq, Hk0.
  - rewrite lookup_insert. case_decide as Heq; [| done].
    exfalso. rewrite Heq in Hc. by eapply Hc.
Qed.

(** X12.  The row of a state is written by [learn] on that state and by
    nothing else: a run without such a call, whatever else it calls
    ([createQ] on the same state included), leaves the row as it was. *)
Theorem only_learn_writes_a_row (py : Python) (calls : list Call) (self : LearningAgent)
    (k : list Atom) (row : Row) :
  Forall (λ c, ∀ a r, c ≠ call_learn (PyTuple k) a r) calls →
  Q self !! k = Some row →
  Q (run py calls self) !! k = Some row.
Proof.
  revert self. induction calls as [|c calls IH]; intros self Hall Hk; [done |].
  apply Forall_cons in Hall as [Hc Hall].
  simpl. apply IH; [done |]. by apply exec_row_unchanged.
Qed.

Lemma only_learn_writes_a_row_witness :
  let calls :=
    [call_createQ (PyTuple example_state); call_reset None false;
     call_createQ (PyTuple other_state);
     call_learn (PyTuple other_state) (Some "right") 4;
     call_choose_action (PyTuple example_state) None 2] in
  Forall (λ c, ∀ a r, c ≠ call_learn (PyTuple example_state) a r) calls
  ∧ Q explorer !! example_state = Some (row_of 0 1 0 0)
  ∧ Q (run Python2 calls explorer) !! example_state = Some (row_of 0 1 0 0).
Proof.
  intros calls.
  assert (Forall (λ c, ∀ a r, c ≠ call_learn (PyTuple example_state) a r) calls)
    as Hall.
  { unfold calls. repeat constructor; intros a r; discriminate. }
  assert (Q explorer !! example_state = Some (row_of 0 1 0 0)) as Hk
    by apply lookup_singleton_eq.
  split; [exact Hall |]. split; [exact Hk |].
  exact (only_learn_writes_a_row Python2 calls explorer example_state _ Hall Hk).
Defined.

(** X13.  The trial counter counts the training trials: after a run it
    has grown by the number of calls of [reset] with [testing=False] in
    the run; a testing reset and every other method leave it alone. *)
Theorem t_counts_training_resets py (calls : list Call) (self : LearningAgent) :
  t (run py calls self) = (t self + training_resets calls)%Z.
Proof. apply run_t. Qed.

Lemma exec_epsilon_range py c self :
  (0 <= epsilon self <= 1)%R → (0 <= epsilon (exec py c self) <= 1)%R.
Proof.
  intros H. call_cases py c self; try done; try lra.
  split; [apply Rabs_pos |]. apply Rabs_le.
  pose proof (COS_bound (alpha self * IZR (t self + 1))). lra.
Qed.

(** X14.  [epsilon] stays a probability: if it is between 0 and 1 it is
    between 0 and 1 after every run; and after a reset, testing or not,
    it is between 0 and 1 whatever it was before. *)
Theorem epsilon_stays_in_unit_interval py (calls : list Call)
    (self : LearningAgent) :
  ((0 <= epsilon self <= 1)%R →
   (0 <= epsilon (run py calls self) <= 1)%R)
  ∧ ∀ destination testing,
      (0 <= epsilon (reset destination testing self).2 <= 1)%R.
Proof.
  split.
  - revert self. induction calls as [|c calls IH]; intros self H; [done |].
    simpl. apply IH. by apply exec_epsilon_range.
  - intros destination testing. rewrite reset_cases.
    destruct testing; simpl; [lra |].
    split; [apply Rabs_pos |]. apply Rabs_le.
    pose proof (COS_bound (alpha self * IZR (t self + 1))). lra.
Qed.

Lemma epsilon_stays_in_unit_interval_witness :
  (0 <= epsilon explorer <= 1)%R
  ∧ (0 <= epsilon
            (run Python2
               [call_reset None false; call_reset (Some (3, 4)%Z) false;
                call_learn (PyTuple example_state) None 3] explorer) <= 1)%R.
Proof.
  assert (0 <= epsilon explorer <= 1)%R as H by (simpl; lra).
  split; [exact H |].
  exact (proj1 (epsilon_stays_in_unit_interval Python2 _ explorer) H).
Defined.

(** X15.  The parameters of the policy move at trial boundaries alone: a
    run without a call of [reset] leaves [epsilon], [alpha] and the
    trial counter as they were. *)
Theorem parameters_change_at_reset_only py (calls : list Call)
    (self : LearningAgent) :
  Forall (λ c, training_reset c = false ∧ testing_reset c = false) calls →
  epsilon (run py calls self) = epsilon self
  ∧ alpha (run py calls self) = alpha self
  ∧ t (run py calls self) = t self.
Proof.
  revert self. induction calls as [|c calls IH]; intros self Hall; [done |].
  apply Forall_cons in Hall as [[Htr Hte] Hall].
  simpl. destruct (IH (exec py c self) Hall) as (-> & -> & ->).
  rewrite exec_epsilon, exec_t, Htr by done. split; [done |].
  split; [| lia]. apply exec_alpha. intros d ->. discriminate Hte.
Qed.

Lemma parameters_change_at_reset_only_witness :
  let calls :=
    [call_createQ (PyTuple other_state);
     call_learn (PyTuple example_state) (Some "forward") 2;
     call_choose_action (PyTuple example_state) None 0;
     call_update (mkStep clear_road 0 (λ _, 1%R))] in
  Forall (λ c, training_reset c = false ∧ testing_reset c = false) calls
  ∧ epsilon (run Python2 calls explorer) = epsilon explorer
  ∧ alpha (run Python2 calls explorer) = alpha explorer
  ∧ t (run Python2 calls explorer) = t explorer.
Proof.
  intros calls.
  assert (Forall (λ c, training_reset c = false ∧ testing_reset c = false) calls)
    as Hall.
  { unfold calls. repeat constructor. }
  split; [exact Hall |].
  exact (parameters_change_at_reset_only Python2 calls explorer Hall).
Defined.

(** X16.  While the agent trains, [alpha] is what the constructor was
    given: a run without a testing reset leaves [alpha] as it was,
    training resets included. *)
Theorem alpha_constant_while_training py (calls : list Call)
    (self : LearningAgent) :
  Forall (λ c, testing_reset c = false) calls →
  alpha (run py calls self) = alpha self.
Proof. apply run_alpha_training. Qed.

Lemma alpha_constant_while_training_witness :
  let calls :=
    [call_reset None false;
     call_learn (PyTuple example_state) (Some "forward") 2;
     call_reset None false; call_update (mkStep clear_road 0 (λ _, 1%R))] in
  Forall (λ c, testing_reset c = false) calls
  ∧ alpha (run Python2 calls explorer) = alpha explorer.
Proof.
  intros calls.
  assert (Forall (λ c, testing_reset c = false) calls) as Hall.
  { unfold calls. repeat constructor. }
  split; [exact Hall |].
  exact (alpha_constant_while_training Python2 calls explorer Hall).
Defined.

(** X17.  No method changes [learning] or [valid_actions]: after every
    run they are what the constructor set. *)
Theorem configuration_is_constant py (calls : list Call) (self : LearningAgent) :
  learning (run py calls self) = learning self
  ∧ valid_actions (run py calls self) = valid_actions self.
Proof.
  split; [apply run_learning |].
  revert self. induction calls as [|c calls IH]; intros self; [done |].
  simpl. by rewrite IH, exec_valid_actions.
Qed.

(** X18.  The agent that [run()] makes, with the defaults of the
    constructor ([learning=False]), never learns: its Q-table is empty
    after every run. *)
Theorem default_agent_keeps_Q_empty py actions (calls : list Call) :
  Q (run py calls (init_default actions)) = ∅.
Proof. by rewrite run_Q_not_learning. Qed.

(** ** How [createQ], [learn] and [choose_action] compose *)

Lemma new_row_values (a : Atom) (v : R) : new_row !! a = Some v → v = 0%R.
Proof.
  rewrite new_row_row_of, lookup_row_of.
  repeat case_decide; congruence.
Qed.

(** X19.  The first visit of a state is a free choice.  In a learning
    agent run by Python 2, after [createQ] on a state that was not in the
    Q-table, [choose_action] on that state returns one of the four
    actions, and each of the four is returned for some output of the
    random generator. *)
Theorem fresh_state_offers_every_action (self : LearningAgent)
    (k : list Atom) (wp : Atom) :
  learning self = true →
  Q self !! k = None →
  let self' := (createQ (PyTuple k) self).2 in
  (∀ d, ∃ a, (choose_action Python2 (PyTuple k) wp d self').1 = Ok a
             ∧ a ∈ env_valid_actions)
  ∧ (∀ a, a ∈ env_valid_actions →
          ∃ d, (choose_action Python2 (PyTuple k) wp d self').1 = Ok a).
Proof.
  intros Hl Hk self'.
  assert (learning self' = true ∧ Q self' !! k = Some new_row) as [Hl' Hk'].
  { unfold self'. rewrite createQ_cases, Hl, Hk. simpl.
    split; [done | apply lookup_insert_eq]. }
  split.
  - intros d. rewrite (choose_action_python2 k new_row wp d self' Hl' Hk').
    destruct (random_choice_returns (best_actions new_row) d
                (set_next_waypoint wp (set_state (PyTuple k) self')))
      as (a & Ha & ->).
    { apply best_actions_nonempty. rewrite new_row_row_of.
      apply row_of_nonempty. }
    exists a. split; [done |].
    apply elem_of_best_actions in Ha as (v & Hv & _).
    apply complete_new_row. by exists v.
  - intros a [v Hv]%complete_new_row.
    destruct (random_choice_reaches (best_actions new_row) a
                (set_next_waypoint wp (set_state (PyTuple k) self')))
      as [d Hd].
    { apply (max_best_actions new_row a v Hv). intros a' v' Hv'.
      apply new_row_values in Hv, Hv'. lra. }
    exists d. by rewrite (choose_action_python2 k new_row wp d self' Hl' Hk'), Hd.
Qed.

Lemma fresh_state_offers_every_action_witness :
  learning learner = true
  ∧ Q learner !! other_state = None
  ∧ ∀ a, a ∈ env_valid_actions →
      ∃ d, (choose_action Python2 (PyTuple other_state) None d
              (createQ (PyTuple other_state) learner).2).1 = Ok a.
Proof.
  assert (learning learner = true) as Hl by reflexivity.
  assert (Q learner !! other_state = None) as Hk by apply lookup_empty.
  split; [exact Hl |]. split; [exact Hk |].
  exact (proj2 (fresh_state_offers_every_action learner other_state None Hl Hk)).
Defined.






(** X22.  When a learning agent run by Python 2 chooses, it hands
    [random.choice] a list in which each action of largest value occurs
    once and no other action occurs: ties are not weighted.  When the
    row of the state has no entries the list is empty and
    [choose_action] raises IndexError. *)
Theorem exploitation_draws_from_the_best (self : LearningAgent)
    (k : list Atom) (row : Row) :
  learning self = true →
  Q self !! k = Some row →
  ∃ best : list Atom,
    NoDup best
    ∧ (∀ a, a ∈ best ↔ ∃ v, row !! a = Some v ∧ largest row v)
    ∧ (∀ wp d,
         choose_action Python2 (PyTuple k) wp d self
         = random_choice best d
             (set_next_waypoint wp (set_state (PyTuple k) self)))
    ∧ (row = ∅ →
       ∀ wp d,
         (choose_action Python2 (PyTuple k) wp d self).1 = Raise IndexError).
Proof.
  intros Hl Hk. exists (best_actions row). split; [| split; [| split]].
  - unfold best_actions, keys. apply NoDup_filter, NoDup_fst_map_to_list.
  - intros a. split.
    + by intros Ha%best_actions_max.
    + intros (v & Hv & Hmax). by eapply max_best_actions.
  - intros wp d. by apply choose_action_python2.
  - intros -> wp d. rewrite (choose_action_python2 k ∅ wp d self Hl Hk).
    unfold best_actions. rewrite (proj2 (keys_nil ∅)) by done.
    by rewrite filter_nil, random_choice_nil.
Qed.

Lemma exploitation_draws_from_the_best_witness :
  learning tied = true
  ∧ Q tied !! example_state = Some (row_of 0 1 1 0)
  ∧ ∃ best : list Atom,
      NoDup best
      ∧ (∀ a, a ∈ best ↔ ∃ v, row_of 0 1 1 0 !! a = Some v
                               ∧ largest (row_of 0 1 1 0) v)
      ∧ (∀ wp d,
           choose_action Python2 (PyTuple example_state) wp d tied
           = random_choice best d
               (set_next_waypoint wp (set_state (PyTuple example_state) tied)))
      ∧ (row_of 0 1 1 0 = ∅ →
         ∀ wp d,
           (choose_action Python2 (PyTuple example_state) wp d tied).1
           = Raise IndexError).
Proof.
  assert (learning tied = true) as Hl by reflexivity.
  assert (Q tied !! example_state = Some (row_of 0 1 1 0)) as Hk
    by apply lookup_singleton_eq.
  split; [exact Hl |]. split; [exact Hk |].
  exact (exploitation_draws_from_the_best tied example_state (row_of 0 1 1 0)
           Hl Hk).
Defined.

(** ** The schedule of [epsilon] *)

(** X23.  While the agent trains, [epsilon] after a training reset is
    [|cos(alpha * t)|] for the [alpha] the run began with and [t] the
    number of training trials begun so far: after a run without a
    testing reset, whatever else was called in between, a training reset
    sets [epsilon] to [|cos(alpha * (t + n + 1))|], [n] being the number
    of training resets of the run. *)
Theorem epsilon_after_training_reset py (calls : list Call)
    (self : LearningAgent) destination :
  Forall (λ c, testing_reset c = false) calls →
  epsilon (run py (calls ++ [call_reset destination false]) self)
  = Rabs (cos (alpha self * IZR (t self + training_resets calls + 1))).
Proof.
  intros Hall. rewrite run_app. cbn [run foldl exec].
  rewrite reset_cases. cbn [snd set_epsilon epsilon].
  by rewrite run_t, run_alpha_training.
Qed.

Lemma epsilon_after_training_reset_witness :
  let calls :=
    [call_reset None false; call_createQ (PyTuple other_state);
     call_reset None false; call_learn (PyTuple example_state) None 1] in
  Forall (λ c, testing_reset c = false) calls
  ∧ epsilon (run Python2 (calls ++ [call_reset None false]) explorer)
    = Rabs (cos (alpha explorer * IZR (t explorer + training_resets calls + 1))).
Proof.
  intros calls.
  assert (Forall (λ c, testing_reset c = false) calls) as Hall.
  { unfold calls. repeat constructor. }
  split; [exact Hall |].
  exact (epsilon_after_training_reset Python2 calls explorer None Hall).
Defined.

Lemma cos_three_halves_bounds : (-0.125 <= cos (3 / 2) <= 0.125)%R.
Proof.
  destruct (pre_cos_bound (3 / 2) 0) as [Hlo Hup]; [lra | lra |].
  unfold cos_approx, cos_term in Hlo, Hup. simpl in Hlo, Hup.
  split; lra.
Qed.

Lemma cos_two_bound : (cos 2 <= - (1 / 3))%R.
Proof.
  destruct (pre_cos_bound 2 0) as [_ Hup]; [lra | lra |].
  unfold cos_approx, cos_term in Hup. simpl in Hup. lra.
Qed.

(** X24.  The schedule does not decay steadily.  For an agent made with
    the default [alpha=0.5], [epsilon] falls from the second training
    trial to the third and rises again from the third to the fourth. *)
Theorem epsilon_schedule_rises_again py actions learning epsilon0 destination :
  let trial n :=
    run py (replicate n (call_reset destination false))
      (init actions learning epsilon0 (1 / 2)) in
  (epsilon (trial 3%nat) < epsilon (trial 2%nat))%R
  ∧ (epsilon (trial 3%nat) < epsilon (trial 4%nat))%R.
Proof.
  intros trial.
  assert (epsilon (trial 2%nat) = Rabs (cos 1)) as ->.
  { unfold trial. cbn [replicate run foldl exec].
    rewrite !reset_cases. simpl. do 2 f_equal.
    change (0 + 1 + 1)%Z with 2%Z. lra. }
  assert (epsilon (trial 3%nat) = Rabs (cos (3 / 2))) as ->.
  { unfold trial. cbn [replicate run foldl exec].
    rewrite !reset_cases. simpl. do 2 f_equal.
    change (0 + 1 + 1 + 1)%Z with 3%Z. lra. }
  assert (epsilon (trial 4%nat) = Rabs (cos 2)) as ->.
  { unfold trial. cbn [replicate run foldl exec].
    rewrite !reset_cases. simpl. do 2 f_equal.
    change (0 + 1 + 1 + 1 + 1)%Z with 4%Z. lra. }
  pose proof cos_one_bounds as H1.
  pose proof cos_three_halves_bounds as H3.
  pose proof cos_two_bound as H2.
  assert (Rabs (cos (3 / 2)) <= 0.125)%R as Hthird by (apply Rabs_le; lra).
  rewrite (Rabs_pos_eq (cos 1)) by lra.
  rewrite (Rabs_left (cos 2)) by lra.
  split; lra.
Qed.
